(** * The recommendation-selection pipeline of [services/transaction_service.py]

    A shallow embedding of the three functions of the service module,
    [fetch_transactions_by_date], [clean_completion_text] and
    [get_recommended_transaction_by_date], together with the parts of the
    Python runtime they lean on ([str.strip], [str.splitlines],
    [datetime.strptime] for the format [%m/%d/%Y]) and an explicit model
    of the two collaborators (the document store and the completion
    provider). *)

From Stdlib Require Import List NArith ZArith QArith String Ascii Bool Lia DecimalString.
Import ListNotations.
Close Scope Q_scope.

Set Implicit Arguments.

(** ** Python values that reach this module *)

(** A Python [str] is a sequence of Unicode code points. *)
Definition char := N.
Definition pystr := list char.

(** Reading a literal of the source as a [pystr]. *)
Definition py (s : string) : pystr := map N_of_ascii (list_ascii_of_string s).

Definition LF : char := 10%N.
Definition CR : char := 13%N.

Fixpoint pystr_eqb (a b : pystr) : bool :=
  match a, b with
  | [], [] => true
  | x :: a', y :: b' => (x =? y)%N && pystr_eqb a' b'
  | _, _ => false
  end.

(** What a collaborator raised: the class name, whether the class derives
    from [Exception] (as opposed to deriving from [BaseException] only,
    like [KeyboardInterrupt] and [SystemExit]), and [str(e)]. *)
Record raised := {
  exc_type : pystr;
  exc_is_Exception : bool;
  exc_str : pystr
}.

(** Why [datetime.strptime] or the [datetime] constructor refused. *)
Inductive value_error :=
| DoesNotMatchFormat            (* time data ... does not match format ... *)
| UnconvertedDataRemains (rest : pystr)
| DayOutOfRange                 (* day is out of range for month *)
| YearOutOfRange                (* year 0 is out of range *)
| FieldOutOfRange.              (* hour, minute, second or month out of range *)

Inductive py_exn :=
| ValueError (why : value_error)
| KeyError (key : pystr)
| IndexError
| AttributeError
| Raised (r : raised).

(** [isinstance(e, Exception)], the test of [except Exception]. *)
Definition is_Exception (e : py_exn) : bool :=
  match e with
  | Raised r => exc_is_Exception r
  | _ => true
  end.

(** The outcome of evaluating a Python expression. *)
Inductive result (A : Type) :=
| Return (a : A)
| Raise (e : py_exn).
Arguments Return {A} a.
Arguments Raise {A} e.

Definition rbind {A B} (r : result A) (f : A -> result B) : result B :=
  match r with
  | Return a => f a
  | Raise e => Raise e
  end.

(** ** [str] methods *)

Definition in_range (lo hi c : N) : bool := ((lo <=? c) && (c <=? hi))%N.

(** [Py_UNICODE_ISSPACE]: the characters [str.strip()] removes. *)
Definition is_space (c : char) : bool :=
  in_range 0x09 0x0d c || in_range 0x1c 0x20 c
  || (c =? 0x85)%N || (c =? 0xa0)%N || (c =? 0x1680)%N
  || in_range 0x2000 0x200a c || in_range 0x2028 0x2029 c
  || (c =? 0x202f)%N || (c =? 0x205f)%N || (c =? 0x3000)%N.

(** [Py_UNICODE_ISLINEBREAK]: the characters [str.splitlines()] cuts at. *)
Definition is_linebreak (c : char) : bool :=
  in_range 0x0a 0x0d c || in_range 0x1c 0x1e c
  || (c =? 0x85)%N || in_range 0x2028 0x2029 c.

Fixpoint lstrip (s : pystr) : pystr :=
  match s with
  | [] => []
  | c :: s' => if is_space c then lstrip s' else s
  end.

Fixpoint rstrip (s : pystr) : pystr :=
  match s with
  | [] => []
  | c :: s' =>
      match rstrip s' with
      | [] => if is_space c then [] else [c]
      | r => c :: r
      end
  end.

(** [s.strip()] *)
Definition strip (s : pystr) : pystr := rstrip (lstrip s).

(** [s.startswith(prefix)] *)
Fixpoint startswith (prefix s : pystr) : bool :=
  match prefix, s with
  | [], _ => true
  | _ :: _, [] => false
  | p :: prefix', c :: s' => (p =? c)%N && startswith prefix' s'
  end.

(** [s.splitlines()]: a line ends at a line break, [\r\n] counts as one
    break, and no empty line is produced after a final break. *)
Fixpoint splitlines (s : pystr) : list pystr :=
  match s with
  | [] => []
  | c :: s' =>
      if is_linebreak c then
        [] :: match s' with
              | c' :: s'' =>
                  if (c =? CR)%N && (c' =? LF)%N then splitlines s''
                  else splitlines s'
              | [] => []
              end
      else
        match splitlines s' with
        | [] => [[c]]
        | l :: ls => (c :: l) :: ls
        end
  end.

(** [sep.join(parts)] *)
Fixpoint join (sep : pystr) (parts : list pystr) : pystr :=
  match parts with
  | [] => []
  | [x] => x
  | x :: rest => x ++ sep ++ join sep rest
  end.

(** [xs[0]] *)
Definition getitem0 {A} (xs : list A) : result A :=
  match xs with
  | x :: _ => Return x
  | [] => Raise IndexError
  end.

(** ** [clean_completion_text] *)

Definition fence : pystr := py "```".

(** [lines and lines[-1].startswith(fence)] *)
Definition last_is_fence (lines : list pystr) : bool :=
  match lines with
  | [] => false
  | _ :: _ => startswith fence (last lines [])
  end.

Definition clean_completion_text (text : pystr) : result pystr :=
  let text := strip text in
  if startswith fence text then
    let lines := splitlines text in
    rbind (getitem0 lines) (fun line0 =>
    let lines := if startswith fence line0 then tl lines else lines in
    let lines := if last_is_fence lines then removelast lines else lines in
    Return (strip (join [LF] lines)))
  else Return text.

(** ** Calendar values: [datetime.datetime] *)

Record datetime := {
  year : Z; month : Z; day : Z;
  hour : Z; minute : Z; second : Z; microsecond : Z
}.

Definition is_leap (y : Z) : bool :=
  ((y mod 4 =? 0) && (negb (y mod 100 =? 0) || (y mod 400 =? 0)))%Z.

Definition days_in_month (y m : Z) : Z :=
  (if m =? 2 then (if is_leap y then 29 else 28)
   else if (m =? 4) || (m =? 6) || (m =? 9) || (m =? 11) then 30
   else 31)%Z.

Definition between (lo hi x : Z) : bool := ((lo <=? x) && (x <=? hi))%Z.

(** [datetime(y, m, d, H, M, S)]: the constructor checks every field. *)
Definition new_datetime (y m d H M S : Z) : result datetime :=
  if negb (between 1 9999 y) then Raise (ValueError YearOutOfRange)
  else if negb (between 1 12 m) then Raise (ValueError FieldOutOfRange)
  else if negb (between 1 (days_in_month y m) d) then Raise (ValueError DayOutOfRange)
  else if negb (between 0 23 H && between 0 59 M && between 0 59 S)
       then Raise (ValueError FieldOutOfRange)
  else Return {| year := y; month := m; day := d;
                 hour := H; minute := M; second := S; microsecond := 0 |}.

Definition datetime_fields (t : datetime) : list Z :=
  [year t; month t; day t; hour t; minute t; second t; microsecond t].

Fixpoint lex_leb (a b : list Z) : bool :=
  match a, b with
  | x :: a', y :: b' => (x <? y)%Z || ((x =? y)%Z && lex_leb a' b')
  | [], _ => true
  | _ :: _, [] => false
  end.

(** [a <= b] on naive datetimes. *)
Definition datetime_leb (a b : datetime) : bool :=
  lex_leb (datetime_fields a) (datetime_fields b).

(** ** The regular expression behind [strptime(_, "%m/%d/%Y")] *)

(** Start of every block of ten decimal digits (general category Nd,
    Unicode 14); the digit's value is its offset in the block. This is
    what [\d] matches on a [str] pattern and what [int()] reads. *)
Definition decimal_blocks : list N :=
  [48; 1632; 1776; 1984; 2406; 2534; 2662; 2790; 2918; 3046; 3174; 3302;
   3430; 3558; 3664; 3792; 3872; 4160; 4240; 6112; 6160; 6470; 6608; 6784;
   6800; 6992; 7088; 7232; 7248; 42528; 43216; 43264; 43472; 43504; 43600;
   44016; 65296; 66720; 68912; 69734; 69872; 69942; 70096; 70384; 70736;
   70864; 71248; 71360; 71472; 71904; 72016; 72784; 73040; 73120; 92768;
   92864; 93008; 120782; 120792; 120802; 120812; 120822; 123200; 123632;
   125264; 130032]%N.

Definition decimal_value (c : char) : option Z :=
  match List.find (fun b => in_range b (b + 9) c) decimal_blocks with
  | Some b => Some (Z.of_N (c - b))
  | None => None
  end.

Definition is_decimal (c : char) : bool :=
  match decimal_value c with Some _ => true | None => false end.

Module Re.

(** The operators the pattern of [%m/%d/%Y] is built from. *)
Inductive regex :=
| Lit (c : char)               (* a literal character *)
| Class (lo hi : char)         (* [lo-hi] *)
| Digit                        (* \d *)
| Seq (r1 r2 : regex)
| Alt (r1 r2 : regex)          (* r1|r2, r1 tried first *)
| Group (name : pystr) (r : regex).   (* (?P<name>r) *)

Definition captures := list (pystr * pystr).

(** One way of matching: the named groups, the text matched and the
    text left over. *)
Record hit := { groups : captures; matched : pystr; rest : pystr }.

Definition one_char (p : char -> bool) (s : pystr) : list hit :=
  match s with
  | c :: s' =>
      if p c then [ {| groups := []; matched := [c]; rest := s' |} ] else []
  | [] => []
  end.

(** Every way [r] matches a prefix of [s], in the order a backtracking
    matcher tries them. *)
Fixpoint run (r : regex) (s : pystr) : list hit :=
  match r with
  | Lit c => one_char (N.eqb c) s
  | Class lo hi => one_char (in_range lo hi) s
  | Digit => one_char is_decimal s
  | Seq r1 r2 =>
      flat_map (fun h1 =>
        map (fun h2 => {| groups := groups h1 ++ groups h2;
                          matched := matched h1 ++ matched h2;
                          rest := rest h2 |})
            (run r2 (rest h1)))
        (run r1 s)
  | Alt r1 r2 => run r1 s ++ run r2 s
  | Group name r1 =>
      map (fun h => {| groups := (name, matched h) :: groups h;
                       matched := matched h;
                       rest := rest h |})
          (run r1 s)
  end.

(** [re.match]: the first match from the start of [s], if any. *)
Definition match_ (r : regex) (s : pystr) : option hit :=
  hd_error (run r s).

Fixpoint group (name : pystr) (found : captures) : option pystr :=
  match found with
  | [] => None
  | (n, text) :: others =>
      if pystr_eqb n name then Some text else group name others
  end.

End Re.

Definition chr (a : string) : char :=
  match a with
  | String c _ => N_of_ascii c
  | EmptyString => 0%N
  end.

(** [(?P<m>1[0-2]|0[1-9]|[1-9])] *)
Definition re_m : Re.regex :=
  Re.Group (py "m")
    (Re.Alt (Re.Seq (Re.Lit (chr "1")) (Re.Class (chr "0") (chr "2")))
    (Re.Alt (Re.Seq (Re.Lit (chr "0")) (Re.Class (chr "1") (chr "9")))
            (Re.Class (chr "1") (chr "9")))).

(** [(?P<d>3[0-1]|[1-2]\d|0[1-9]|[1-9]| [1-9])] *)
Definition re_d : Re.regex :=
  Re.Group (py "d")
    (Re.Alt (Re.Seq (Re.Lit (chr "3")) (Re.Class (chr "0") (chr "1")))
    (Re.Alt (Re.Seq (Re.Class (chr "1") (chr "2")) Re.Digit)
    (Re.Alt (Re.Seq (Re.Lit (chr "0")) (Re.Class (chr "1") (chr "9")))
    (Re.Alt (Re.Class (chr "1") (chr "9"))
            (Re.Seq (Re.Lit (chr " ")) (Re.Class (chr "1") (chr "9"))))))).

(** [(?P<Y>\d\d\d\d)] *)
Definition re_Y : Re.regex :=
  Re.Group (py "Y") (Re.Seq Re.Digit (Re.Seq Re.Digit (Re.Seq Re.Digit Re.Digit))).

(** The pattern [_strptime] compiles for the format [%m/%d/%Y]. *)
Definition format_regex : Re.regex :=
  Re.Seq re_m (Re.Seq (Re.Lit (chr "/")) (Re.Seq re_d (Re.Seq (Re.Lit (chr "/")) re_Y))).

(** [int(text)] on the texts a group of [format_regex] can hold: decimal
    digits, possibly after blanks. (Signs and underscores, which [int]
    also reads, cannot occur there.) *)
Definition int_digits (text : pystr) : option Z :=
  match strip text with
  | [] => None
  | digits =>
      fold_left (fun acc c =>
                   match acc, decimal_value c with
                   | Some n, Some v => Some (10 * n + v)%Z
                   | _, _ => None
                   end) digits (Some 0%Z)
  end.

Definition group_int (name : pystr) (found : Re.captures) : result Z :=
  match Re.group name found with
  | Some text =>
      match int_digits text with
      | Some n => Return n
      | None => Raise (ValueError DoesNotMatchFormat)
      end
  | None => Raise (KeyError name)
  end.

(** [datetime.strptime(data_string, "%m/%d/%Y")] *)
Definition strptime (data_string : pystr) : result datetime :=
  match Re.match_ format_regex data_string with
  | None => Raise (ValueError DoesNotMatchFormat)
  | Some found =>
      match Re.rest found with
      | _ :: _ => Raise (ValueError (UnconvertedDataRemains (Re.rest found)))
      | [] =>
          rbind (group_int (py "m") (Re.groups found)) (fun m =>
          rbind (group_int (py "d") (Re.groups found)) (fun d =>
          rbind (group_int (py "Y") (Re.groups found)) (fun Y =>
          new_datetime Y m d 0 0 0)))
      end
  end.

(** The whole of [data_string] matches the pattern of the format. *)
Definition matches_format (data_string : pystr) : bool :=
  match Re.match_ format_regex data_string with
  | Some found => match Re.rest found with [] => true | _ :: _ => false end
  | None => false
  end.

(** ** Transaction records *)

(** The values a stored transaction holds. A float is kept by its printed
    form, the only thing this module ever asks of it. *)
Inductive value :=
| VNone
| VBool (b : bool)
| VInt (n : Z)
| VFloat (printed : pystr)
| VStr (s : pystr)
| VObjectId (hex : pystr)
| VDatetime (t : datetime).

(** A record is a [dict] with string keys, in insertion order. *)
Definition document := list (pystr * value).

Fixpoint dict_get (key : pystr) (d : document) : option value :=
  match d with
  | [] => None
  | (k, v) :: d' => if pystr_eqb k key then Some v else dict_get key d'
  end.

(** [d[key]] *)
Definition getitem (d : document) (key : pystr) : result value :=
  match dict_get key d with
  | Some v => Return v
  | None => Raise (KeyError key)
  end.

(** [d[key] = v] *)
Fixpoint setitem (d : document) (key : pystr) (v : value) : document :=
  match d with
  | [] => [(key, v)]
  | (k, x) :: d' =>
      if pystr_eqb k key then (k, v) :: d' else (k, x) :: setitem d' key v
  end.

Definition digit_char (n : Z) : char := (48 + Z.to_N (n mod 10))%N.

Fixpoint zero_padded (width : nat) (n : Z) : pystr :=
  match width with
  | O => []
  | S w => zero_padded w (n / 10) ++ [digit_char n]
  end.

Definition str_int (n : Z) : pystr := py (NilZero.string_of_int (Z.to_int n)).

Definition str_datetime (t : datetime) : pystr :=
  zero_padded 4 (year t) ++ py "-" ++ zero_padded 2 (month t) ++ py "-"
  ++ zero_padded 2 (day t) ++ py " " ++ zero_padded 2 (hour t) ++ py ":"
  ++ zero_padded 2 (minute t) ++ py ":" ++ zero_padded 2 (second t)
  ++ (if (microsecond t =? 0)%Z then [] else py "." ++ zero_padded 6 (microsecond t)).

(** [str(v)], which is also what an f-string field [{v}] renders. *)
Definition py_str (v : value) : pystr :=
  match v with
  | VNone => py "None"
  | VBool true => py "True"
  | VBool false => py "False"
  | VInt n => str_int n
  | VFloat printed => printed
  | VStr s => s
  | VObjectId hex => hex
  | VDatetime t => str_datetime t
  end.

(** ** The transaction repository *)

(** The filters this module builds: a closed range on [transaction_date]
    and, when present, an equality test on the processed flag. *)
Record query := {
  transaction_date_gte : datetime;
  transaction_date_lte : datetime;
  is_processed_for_recommendation : option bool
}.

Definition matches (q : query) (doc : document) : bool :=
  match dict_get (py "transaction_date") doc with
  | Some (VDatetime t) =>
      datetime_leb (transaction_date_gte q) t && datetime_leb t (transaction_date_lte q)
  | _ => false
  end
  &&
  match is_processed_for_recommendation q with
  | None => true
  | Some wanted =>
      match dict_get (py "is_processed_for_recommendation") doc with
      | Some (VBool b) => Bool.eqb b wanted
      | _ => false
      end
  end.

(** What a call into a collaborator comes back with. *)
Inductive reply (A : Type) :=
| Replied (a : A)
| Faulted (r : raised).
Arguments Replied {A} a.
Arguments Faulted {A} r.

Record database := {
  run_find : pystr -> query -> reply (list document)
}.

(** [db[name]] *)
Record collection := {
  coll_database : database;
  coll_name : pystr
}.

Definition db_getitem (db : database) (name : pystr) : collection :=
  {| coll_database := db; coll_name := name |}.

(** A store that holds [stored] in its [transactions] collection and
    answers the filters above the way the document store does. *)
Definition stored_database (stored : list document) : database :=
  {| run_find := fun name q =>
       Replied (if pystr_eqb name (py "transactions")
                then filter (matches q) stored else []) |}.

(** ** The completion provider *)

Record chat_message := { role : pystr; content : pystr }.

Record completion_request := {
  model : pystr;
  temperature : Q;
  messages : list chat_message
}.

Record choice := { message_content : option pystr }.
Record completion := { choices : list choice }.

Record openai_client := {
  chat_completions_create : completion_request -> reply completion
}.

(** ** Python objects handed back to the caller *)

#[local] Unset Elimination Schemes.
Inductive pyobj :=
| PNone
| PBool (b : bool)
| PInt (n : Z)
| PFloat (printed : pystr)
| PStr (s : pystr)
| PList (items : list pyobj)
| PDict (items : list (pystr * pyobj)).
#[local] Set Elimination Schemes.

(** ** The world around one invocation *)

(** How a call of [json.loads] ends: with the decoded object, with
    [JSONDecodeError], or with an exception of another class
    ([RecursionError] on a deeply nested text, [ValueError] on an integer
    literal beyond the digit limit). *)
Inductive decoding :=
| Decoded (obj : pyobj)
| JSONDecodeError
| DecoderRaised (r : raised).

Record world := {
  get_database : reply database;
  get_openai_client : reply openai_client;
  json_loads : pystr -> decoding
}.

Inductive event :=
| GetDatabase
| Find (coll : pystr) (q : query)
| GetOpenaiClient
| ChatCompletionsCreate (req : completion_request)
| JsonLoads (text : pystr).

(** A run: the calls made, in order, and how it ended. *)
Definition M (A : Type) : Type := list event * result A.

Definition ret {A} (a : A) : M A := ([], Return a).

Definition bind {A B} (m : M A) (f : A -> M B) : M B :=
  match m with
  | (t, Return a) => let (t', r) := f a in (t ++ t', r)
  | (t, Raise e) => (t, Raise e)
  end.

Declare Scope py_scope.
Delimit Scope py_scope with py_.
Notation "x <- m ;; k" := (bind m (fun x => k))
  (at level 61, m at next level, right associativity) : py_scope.
Local Open Scope py_scope.

(** An expression that touches no collaborator. *)
Definition eval {A} (r : result A) : M A := ([], r).

(** A call into a collaborator; its fault propagates. *)
Definition call {A} (ev : event) (r : reply A) : M A :=
  ([ev], match r with
         | Replied a => Return a
         | Faulted f => Raise (Raised f)
         end).

(** [try: x = <call>  except Exception as e: ...]: a fault of a class
    derived from [Exception] is handed to the handler ([inl]), any other
    one propagates. *)
Definition try_except_Exception {A} (ev : event) (r : reply A) : M (raised + A) :=
  ([ev], match r with
         | Replied a => Return (inr a)
         | Faulted f =>
             if exc_is_Exception f then Return (inl f) else Raise (Raised f)
         end).

Fixpoint for_each {A B} (body : A -> result B) (xs : list A) : result (list B) :=
  match xs with
  | [] => Return []
  | x :: xs' =>
      rbind (body x) (fun y =>
      rbind (for_each body xs') (fun ys => Return (y :: ys)))
  end.

Definition find (coll : collection) (q : query) : M (list document) :=
  call (Find (coll_name coll) q) (run_find (coll_database coll) (coll_name coll) q).

(** ** The service functions *)

Definition DQ : pystr := [34%N].   (* the double quote *)

(** One line of the JSON template in the system instruction:
    two blanks, the quoted key, a colon, the quoted placeholder. *)
Definition template_line (key placeholder : string) : pystr :=
  py "  " ++ DQ ++ py key ++ DQ ++ py ": " ++ DQ ++ py placeholder ++ DQ.

Definition system_instructions : pystr :=
  py "You are a Wells Fargo product recommendation system. "
  ++ py "Given a list of transactions, pick transactions (transaction_id) "
  ++ py "for which a Wells Fargo product can be recommended. "
  ++ py "Output a list of JSON objects with the format:" ++ [LF]
  ++ py "[ {" ++ [LF]
  ++ template_line "transaction_id" "<the chosen transaction id>" ++ py "," ++ [LF]
  ++ template_line "category" "<the chosen transaction category>" ++ py "," ++ [LF]
  ++ template_line "description" "<the chosen transaction description>" ++ py "," ++ [LF]
  ++ template_line "type" "<the chosen transaction type>" ++ py "," ++ [LF]
  ++ template_line "reason" "<short reason why this product suits the transaction>" ++ [LF]
  ++ py "} ]".

(** The f-string appended to [tx_descriptions] for one record. *)
Definition tx_description (tx : document) : result pystr :=
  rbind (getitem tx (py "transaction_id")) (fun transaction_id =>
  rbind (getitem tx (py "transaction_type")) (fun transaction_type =>
  rbind (getitem tx (py "balance_after_transaction")) (fun balance =>
  rbind (getitem tx (py "amount")) (fun amount =>
  rbind (getitem tx (py "merchant_category")) (fun merchant_category =>
  rbind (getitem tx (py "description")) (fun description =>
  Return (py "TransactionID: " ++ py_str transaction_id ++ py ", "
          ++ py "Type: " ++ py_str transaction_type ++ py ", "
          ++ py "Balance After Transaction: " ++ py_str balance
          ++ py "Amount: " ++ py_str amount ++ py ", "
          ++ py "Category: " ++ py_str merchant_category ++ py ", "
          ++ py "Desc: " ++ py_str description))))))).

Definition user_message (prompt_context : pystr) : pystr :=
  py "Transactions:" ++ [LF] ++ prompt_context ++ [LF]
  ++ py "Which transactions do you pick?".

Definition completion_request_for (user : pystr) : completion_request :=
  {| model := py "deepseek-reasoner";
     temperature := (7 # 10)%Q;
     messages := [ {| role := py "system"; content := system_instructions |};
                   {| role := py "user"; content := user |} ] |}.

(** [tx["_id"] = str(tx["_id"])] *)
Definition stringify_id (tx : document) : result document :=
  rbind (getitem tx (py "_id")) (fun id =>
  Return (setitem tx (py "_id") (VStr (py_str id)))).

(** The filter both functions write down (lines 21-27 and 66-72). *)
Definition day_query (start_of_day end_of_day : datetime) : query :=
  {| transaction_date_gte := start_of_day;
     transaction_date_lte := end_of_day;
     is_processed_for_recommendation := Some false |}.

Section Service.

Variable w : world.

(** [try: x = json.loads(text)  except json.JSONDecodeError: ...]: only
    [JSONDecodeError] reaches the handler ([None]); any other exception
    of the decoder propagates. *)
Definition call_json_loads (text : pystr) : M (option pyobj) :=
  ([JsonLoads text],
   match json_loads w text with
   | Decoded obj => Return (Some obj)
   | JSONDecodeError => Return None
   | DecoderRaised r => Raise (Raised r)
   end).

Definition fetch_transactions_by_date (date_str : pystr) : M (list document) :=
  db <- call GetDatabase (get_database w) ;;
  let transactions_coll := db_getitem db (py "transactions") in
  date_obj <- eval (strptime date_str) ;;
  start_of_day <- eval (new_datetime (year date_obj) (month date_obj) (day date_obj) 0 0 0) ;;
  end_of_day <- eval (new_datetime (year date_obj) (month date_obj) (day date_obj) 23 59 59) ;;
  let query := day_query start_of_day end_of_day in
  transactions <- find transactions_coll query ;;
  transactions <- eval (for_each stringify_id transactions) ;;
  ret transactions.

(** Lines 58-74: up to and including the read of the store. *)
Definition fetch_unprocessed (date_str : pystr) : M (list document) :=
  db <- call GetDatabase (get_database w) ;;
  let transactions_coll := db_getitem db (py "transactions") in
  date_obj <- eval (strptime date_str) ;;
  start_of_day <- eval (new_datetime (year date_obj) (month date_obj) (day date_obj) 0 0 0) ;;
  end_of_day <- eval (new_datetime (year date_obj) (month date_obj) (day date_obj) 23 59 59) ;;
  let query := day_query start_of_day end_of_day in
  find transactions_coll query.

(** Lines 129-139: from the provider's reply to the returned object. *)
Definition decode_completion (response : completion) : M pyobj :=
  choice0 <- eval (getitem0 (choices response)) ;;
  content <- eval (match message_content choice0 with
                   | Some text => Return text
                   | None => Raise AttributeError
                   end) ;;
  let completion_text := strip content in
  completion_text <- eval (clean_completion_text completion_text) ;;
  decoded <- call_json_loads completion_text ;;
  match decoded with
  | None =>
      ret (PDict [ (py "error", PStr (py "Failed to parse LLM response as JSON."));
                   (py "raw_response", PStr completion_text) ])
  | Some llm_json => ret llm_json
  end.

(** Lines 76-139: what is done with the records read. *)
Definition recommend_from (date_str : pystr) (unprocessed_txs : list document) : M pyobj :=
  match unprocessed_txs with
  | [] =>
      ret (PDict [ (py "message", PStr (py "No unprocessed transactions found for this date"));
                   (py "date", PStr date_str) ])
  | _ :: _ =>
      tx_descriptions <- eval (for_each tx_description unprocessed_txs) ;;
      let prompt_context := join [LF] tx_descriptions in
      openai_client <- call GetOpenaiClient (get_openai_client w) ;;
      let req := completion_request_for (user_message prompt_context) in
      attempt <- try_except_Exception (ChatCompletionsCreate req)
                   (chat_completions_create openai_client req) ;;
      match attempt with
      | inl e =>
          ret (PDict [ (py "error", PStr (py "OpenAI API call failed: " ++ exc_str e)) ])
      | inr response => decode_completion response
      end
  end.

Definition get_recommended_transaction_by_date (date_str : pystr) : M pyobj :=
  unprocessed_txs <- fetch_unprocessed date_str ;;
  recommend_from date_str unprocessed_txs.

End Service.

(** ** Vocabulary for the statements *)

(** The same calendar day at another time of day. *)
Definition at_time (t : datetime) (H M S : Z) : datetime :=
  {| year := year t; month := month t; day := day t;
     hour := H; minute := M; second := S; microsecond := 0 |}.

(** The selection query of a day: the day window and the flag at [False]. *)
Definition selection_query (date_obj : datetime) : query :=
  day_query (at_time date_obj 0 0 0) (at_time date_obj 23 59 59).

(** The inspection query as the specification words it: the day window
    only, no condition on the flag. *)
Definition inspection_query (date_obj : datetime) : query :=
  {| transaction_date_gte := at_time date_obj 0 0 0;
     transaction_date_lte := at_time date_obj 23 59 59;
     is_processed_for_recommendation := None |}.

Definition window (q : query) : datetime * datetime :=
  (transaction_date_gte q, transaction_date_lte q).

(** The filters a run sent to the store, in order. *)
Fixpoint queries_issued (trace : list event) : list query :=
  match trace with
  | [] => []
  | Find _ q :: trace' => q :: queries_issued trace'
  | _ :: trace' => queries_issued trace'
  end.

Definition is_provider_event (ev : event) : bool :=
  match ev with
  | GetOpenaiClient | ChatCompletionsCreate _ => true
  | _ => false
  end.

Definition is_json_parse (ev : event) : bool :=
  match ev with
  | JsonLoads _ => true
  | _ => false
  end.

Definition provider_events (trace : list event) : list event :=
  filter is_provider_event trace.

Definition json_parses (trace : list event) : list event :=
  filter is_json_parse trace.

(** The request sent for a list of rendered transactions. *)
Definition request_for (tx_descriptions : list pystr) : completion_request :=
  completion_request_for (user_message (join [LF] tx_descriptions)).

Definition has_string_id (tx : document) : bool :=
  match dict_get (py "_id") tx with
  | Some (VStr _) => true
  | _ => false
  end.

(** The record with its [_id] replaced by [str] of it. *)
Definition with_string_id (tx : document) : document :=
  match dict_get (py "_id") tx with
  | Some id => setitem tx (py "_id") (VStr (py_str id))
  | None => tx
  end.

(** A year, month and day that name a day of the calendar. *)
Definition valid_date (y m d : Z) : bool :=
  between 1 9999 y && between 1 12 m && between 1 (days_in_month y m) d.

(** A date written as MM/DD/YYYY: two digits, two digits, four digits. *)
Definition format_mdY (m d y : Z) : pystr :=
  zero_padded 2 m ++ py "/" ++ zero_padded 2 d ++ py "/" ++ zero_padded 4 y.

(** The keys the prompt reads from a record, in the order of the
    f-string. *)
Definition prompt_fields : list pystr :=
  [ py "transaction_id"; py "transaction_type"; py "balance_after_transaction";
    py "amount"; py "merchant_category"; py "description" ].

(** The place of a call in the order the source makes them. *)
Definition call_rank (ev : event) : nat :=
  match ev with
  | GetDatabase => 0
  | Find _ _ => 1
  | GetOpenaiClient => 2
  | ChatCompletionsCreate _ => 3
  | JsonLoads _ => 4
  end.

(** [t] lies in the closed range of the filter. *)
Definition in_window (q : query) (t : datetime) : bool :=
  datetime_leb (transaction_date_gte q) t && datetime_leb t (transaction_date_lte q).

Definition no_linebreak (line : pystr) : bool :=
  forallb (fun c => negb (is_linebreak c)) line.

(** A date written without leading zeros in month and day, as in 3/1/2024. *)
Definition format_unpadded (m d y : Z) : pystr :=
  str_int m ++ py "/" ++ str_int d ++ py "/" ++ zero_padded 4 y.

(** No named group occurs in the expression. *)
Fixpoint group_free (r : Re.regex) : bool :=
  match r with
  | Re.Lit _ | Re.Class _ _ | Re.Digit => true
  | Re.Seq r1 r2 | Re.Alt r1 r2 => group_free r1 && group_free r2
  | Re.Group _ _ => false
  end.









(** ** A small store and a stubbed provider, for concrete runs *)

Definition march_1_2024 : datetime :=
  {| year := 2024; month := 3; day := 1;
     hour := 0; minute := 0; second := 0; microsecond := 0 |}.

Definition transaction (oid id : string) (processed : bool) (H M : Z) : document :=
  [ (py "_id", VObjectId (py oid));
    (py "transaction_id", VStr (py id));
    (py "transaction_type", VStr (py "debit"));
    (py "balance_after_transaction", VInt 500);
    (py "amount", VInt 20);
    (py "merchant_category", VStr (py "travel"));
    (py "description", VStr (py "Flight"));
    (py "transaction_date", VDatetime (at_time march_1_2024 H M 0));
    (py "is_processed_for_recommendation", VBool processed) ].

Definition tx_T1 : document := transaction "65e1c0a2f3b4a5d6e7f80911" "T1" false 12 30.
Definition tx_T2 : document := transaction "65e1c0a2f3b4a5d6e7f80912" "T2" true 9 15.

Definition connection_error : raised :=
  {| exc_type := py "APIConnectionError";
     exc_is_Exception := true;
     exc_str := py "Connection error." |}.

Definition keyboard_interrupt : raised :=
  {| exc_type := py "KeyboardInterrupt";
     exc_is_Exception := false;
     exc_str := [] |}.

Definition client_replying (text : option pystr) : openai_client :=
  {| chat_completions_create := fun _ =>
       Replied {| choices := [ {| message_content := text |} ] |} |}.

Definition client_raising (r : raised) : openai_client :=
  {| chat_completions_create := fun _ => Faulted r |}.

Definition recursion_error : raised :=
  {| exc_type := py "RecursionError";
     exc_is_Exception := true;
     exc_str := py "maximum recursion depth exceeded while decoding a JSON array from a unicode string" |}.

(** 1500 opening brackets: not a JSON document, and nested too deep for
    the decoder. *)
Definition deep_brackets : pystr := repeat (chr "[") 1500.

(** Stands in for [json.loads] on the sample runs: as [json.loads] does,
    it decodes the texts [[1]] and [[]] and raises [RecursionError] on
    [deep_brackets]; it rejects every other text with [JSONDecodeError]. *)
Definition loads_stub (text : pystr) : decoding :=
  if pystr_eqb text (py "[1]") then Decoded (PList [PInt 1])
  else if pystr_eqb text (py "[]") then Decoded (PList [])
  else if pystr_eqb text deep_brackets then DecoderRaised recursion_error
  else JSONDecodeError.

Definition sample_world (stored : list document) (client : openai_client) : world :=
  {| get_database := Replied (stored_database stored);
     get_openai_client := Replied client;
     json_loads := loads_stub |}.

(** * Properties *)

Unset Implicit Arguments.

(** ** Stripping and splitting *)

Lemma pystr_eqb_eq (a b : pystr) : pystr_eqb a b = true <-> a = b.
Proof.
  revert b; induction a as [|x a IH]; intros [|y b]; simpl; split;
    try congruence; try reflexivity.
  - intros H. apply andb_true_iff in H as [Hx Hab].
    apply N.eqb_eq in Hx. apply IH in Hab. congruence.
  - intros H. injection H as -> ->.
    rewrite N.eqb_refl. simpl. apply IH. reflexivity.
Qed.

Lemma lstrip_head (s : pystr) :
  lstrip s = [] \/ exists c t, lstrip s = c :: t /\ is_space c = false.
Proof.
  induction s as [|c s IH]; simpl.
  - now left.
  - destruct (is_space c) eqn:E; [exact IH|].
    right. now exists c, s.
Qed.

Lemma rstrip_keeps_head (c : char) (t : pystr) :
  is_space c = false -> rstrip (c :: t) = c :: rstrip t.
Proof.
  intros E. simpl. rewrite E. now destruct (rstrip t).
Qed.

Lemma rstrip_idempotent (s : pystr) : rstrip (rstrip s) = rstrip s.
Proof.
  induction s as [|c s IH]; simpl; [reflexivity|].
  destruct (rstrip s) as [|x r] eqn:E.
  - destruct (is_space c) eqn:Ec; simpl; [reflexivity|]. now rewrite Ec.
  - change (rstrip (c :: x :: r) = c :: x :: r).
    simpl. simpl in IH. destruct (rstrip r) eqn:Er.
    + destruct (is_space x); [discriminate|]. injection IH as <-. reflexivity.
    + now rewrite IH.
Qed.

Lemma lstrip_strip (s : pystr) : lstrip (strip s) = strip s.
Proof.
  unfold strip. destruct (lstrip_head s) as [E | (c & t & E & Hc)]; rewrite E.
  - reflexivity.
  - rewrite (rstrip_keeps_head c t Hc). simpl. now rewrite Hc.
Qed.

Lemma strip_idempotent (s : pystr) : strip (strip s) = strip s.
Proof.
  unfold strip at 1. rewrite lstrip_strip. unfold strip. apply rstrip_idempotent.
Qed.

Lemma splitlines_nonempty (c : char) (s : pystr) : splitlines (c :: s) <> [].
Proof.
  simpl. destruct (is_linebreak c); [discriminate|].
  destruct (splitlines s); discriminate.
Qed.

Lemma clean_completion_text_returns (text : pystr) :
  exists cleaned, clean_completion_text text = Return cleaned /\ strip cleaned = cleaned.
Proof.
  unfold clean_completion_text.
  destruct (startswith fence (strip text)) eqn:F.
  - destruct (strip text) as [|c s] eqn:E; [discriminate|].
    destruct (splitlines (c :: s)) as [|line0 rest] eqn:L.
    + exfalso. exact (splitlines_nonempty c s L).
    + simpl. eexists. split; [reflexivity|]. apply strip_idempotent.
  - eexists. split; [reflexivity|]. apply strip_idempotent.
Qed.

Lemma clean_unfenced (x : pystr) :
  startswith fence (strip x) = false ->
  clean_completion_text x = Return (strip x).
Proof.
  intros F. unfold clean_completion_text. now rewrite F.
Qed.

Lemma clean_of_cleaned_unfenced (x cleaned : pystr) :
  clean_completion_text x = Return cleaned ->
  startswith fence cleaned = false ->
  clean_completion_text cleaned = Return cleaned.
Proof.
  intros E F.
  destruct (clean_completion_text_returns x) as (r & Er & Hr).
  rewrite E in Er. injection Er as <-.
  rewrite <- Hr in F. rewrite (clean_unfenced cleaned F). now rewrite Hr.
Qed.

(** C9. When the trimmed text does not begin with the fence, cleaning a
    text is trimming it. *)
Theorem clean_without_fence_is_strip (x : pystr) :
  startswith fence (strip x) = false ->
  clean_completion_text x = Return (strip x).
Proof.
  intros F. unfold clean_completion_text.
  destruct (startswith fence (strip x)); [discriminate F | reflexivity].
Qed.

Lemma clean_without_fence_is_strip_witness :
  startswith fence (strip (py "  [1, 2]  ")) = false
  /\ clean_completion_text (py "  [1, 2]  ") = Return (py "[1, 2]").
Proof.
  split; [reflexivity|].
  exact (clean_without_fence_is_strip (py "  [1, 2]  ") eq_refl).
Defined.

(** C10. Cleaning never raises, whatever the text: it returns a string,
    and that string is its own trimmed form. The empty text, a lone fence
    and a fence with a language tag on one line all clean to the empty
    string. *)
Theorem clean_completion_text_total :
  (forall text, exists cleaned,
      clean_completion_text text = Return cleaned /\ strip cleaned = cleaned)
  /\ clean_completion_text [] = Return []
  /\ clean_completion_text (py "```") = Return []
  /\ clean_completion_text (py "```json") = Return [].
Proof.
  split; [exact clean_completion_text_returns|].
  repeat split; reflexivity.
Qed.

(** C2, as amended. Cleaning a cleaned text changes nothing as long as the
    cleaned text does not itself begin with a fence. *)
Theorem clean_idempotent_without_inner_fence (x cleaned : pystr) :
  clean_completion_text x = Return cleaned ->
  startswith fence cleaned = false ->
  rbind (clean_completion_text x) clean_completion_text = clean_completion_text x.
Proof.
  intros E F. rewrite E. simpl. exact (clean_of_cleaned_unfenced x cleaned E F).
Qed.

(** ** Dates *)

Lemma new_datetime_inv (y m d H M S : Z) (t : datetime) :
  new_datetime y m d H M S = Return t ->
  t = {| year := y; month := m; day := d;
         hour := H; minute := M; second := S; microsecond := 0 |}
  /\ between 1 9999 y = true /\ between 1 12 m = true
  /\ between 1 (days_in_month y m) d = true.
Proof.
  unfold new_datetime.
  destruct (between 1 9999 y); simpl; [|discriminate].
  destruct (between 1 12 m); simpl; [|discriminate].
  destruct (between 1 (days_in_month y m) d); simpl; [|discriminate].
  destruct (between 0 23 H && between 0 59 M && between 0 59 S); simpl; [|discriminate].
  intros E. injection E as <-. auto.
Qed.

Lemma new_datetime_ok (y m d H M S : Z) :
  between 1 9999 y = true -> between 1 12 m = true ->
  between 1 (days_in_month y m) d = true ->
  between 0 23 H && between 0 59 M && between 0 59 S = true ->
  new_datetime y m d H M S =
    Return {| year := y; month := m; day := d;
              hour := H; minute := M; second := S; microsecond := 0 |}.
Proof.
  intros Hy Hm Hd Ht. unfold new_datetime. now rewrite Hy, Hm, Hd, Ht.
Qed.

Lemma strptime_new_datetime (s : pystr) (date_obj : datetime) :
  strptime s = Return date_obj ->
  exists Y m d, new_datetime Y m d 0 0 0 = Return date_obj.
Proof.
  unfold strptime.
  destruct (Re.match_ format_regex s) as [found|]; [|discriminate].
  destruct (Re.rest found); [|discriminate].
  destruct (group_int (py "m") (Re.groups found)) as [m|]; [|discriminate].
  destruct (group_int (py "d") (Re.groups found)) as [d|]; [|discriminate].
  destruct (group_int (py "Y") (Re.groups found)) as [Y|]; [|discriminate].
  simpl. intros E. now exists Y, m, d.
Qed.

(** What [strptime] returns is a real calendar day at midnight, so the two
    [datetime(...)] calls that follow it cannot fail. *)
Lemma strptime_day_bounds (s : pystr) (date_obj : datetime) :
  strptime s = Return date_obj ->
  new_datetime (year date_obj) (month date_obj) (day date_obj) 0 0 0
    = Return (at_time date_obj 0 0 0)
  /\ new_datetime (year date_obj) (month date_obj) (day date_obj) 23 59 59
    = Return (at_time date_obj 23 59 59)
  /\ at_time date_obj 0 0 0 = date_obj.
Proof.
  intros E. destruct (strptime_new_datetime s date_obj E) as (Y & m & d & N).
  apply new_datetime_inv in N as (-> & Hy & Hm & Hd). simpl.
  repeat split; apply new_datetime_ok; auto.
Qed.


(** ** The read of the store *)

Section Runs.

Variable w : world.

Lemma fetch_unprocessed_no_database (date_str : pystr) (f : raised) :
  get_database w = Faulted f ->
  fetch_unprocessed w date_str = ([GetDatabase], Raise (Raised f)).
Proof.
  intros E. unfold fetch_unprocessed, bind, call. now rewrite E.
Qed.

Lemma fetch_unprocessed_bad_date (date_str : pystr) (db : database) (e : py_exn) :
  get_database w = Replied db ->
  strptime date_str = Raise e ->
  fetch_unprocessed w date_str = ([GetDatabase], Raise e).
Proof.
  intros Edb E. unfold fetch_unprocessed, bind, call, eval. now rewrite Edb, E.
Qed.

Lemma fetch_unprocessed_run (date_str : pystr) (db : database) (date_obj : datetime) :
  get_database w = Replied db ->
  strptime date_str = Return date_obj ->
  fetch_unprocessed w date_str =
    ([GetDatabase; Find (py "transactions") (selection_query date_obj)],
     match run_find db (py "transactions") (selection_query date_obj) with
     | Replied docs => Return docs
     | Faulted f => Raise (Raised f)
     end).
Proof.
  intros Edb E.
  destruct (strptime_day_bounds date_str date_obj E) as (E0 & E1 & _).
  unfold fetch_unprocessed, bind, call, eval, find.
  rewrite Edb, E, E0, E1. reflexivity.
Qed.

Lemma fetch_transactions_bad_date (date_str : pystr) (db : database) (e : py_exn) :
  get_database w = Replied db ->
  strptime date_str = Raise e ->
  fetch_transactions_by_date w date_str = ([GetDatabase], Raise e).
Proof.
  intros Edb E. unfold fetch_transactions_by_date, bind, call, eval.
  now rewrite Edb, E.
Qed.

Lemma fetch_transactions_run (date_str : pystr) (db : database) (date_obj : datetime) :
  get_database w = Replied db ->
  strptime date_str = Return date_obj ->
  fetch_transactions_by_date w date_str =
    ([GetDatabase; Find (py "transactions") (selection_query date_obj)],
     match run_find db (py "transactions") (selection_query date_obj) with
     | Replied docs => for_each stringify_id docs
     | Faulted f => Raise (Raised f)
     end).
Proof.
  intros Edb E.
  destruct (strptime_day_bounds date_str date_obj E) as (E0 & E1 & _).
  unfold fetch_transactions_by_date, bind, call, eval, find, ret.
  rewrite Edb, E, E0, E1. unfold selection_query. simpl.
  destruct (run_find db _ _) as [docs|f]; simpl; [|reflexivity].
  destruct (for_each stringify_id docs); reflexivity.
Qed.

End Runs.

(** ** Outcomes of the two entry points *)

(** C1. The inspection entry point does not return every transaction of
    the day: on a store holding one transaction of 1 March 2024 already
    marked processed, [fetch_transactions_by_date "03/01/2024"] sends the
    filter with the flag at [False] and returns nothing, although the day
    window alone selects the record. *)
Theorem fetch_by_date_applies_flag_filter :
  fetch_transactions_by_date (sample_world [tx_T2] (client_replying None)) (py "03/01/2024")
    = ([GetDatabase; Find (py "transactions") (selection_query march_1_2024)], Return [])
  /\ is_processed_for_recommendation (selection_query march_1_2024) = Some false
  /\ filter (matches (inspection_query march_1_2024)) [tx_T2] = [tx_T2].
Proof.
  repeat split; vm_compute; reflexivity.
Qed.

(** C3. When the selection query comes back empty, the pipeline returns
    the message object carrying the date string as given, after the two
    store calls and nothing else: no provider call is made. *)
Theorem no_unprocessed_transactions
  (w : world) (db : database) (date_str : pystr) (date_obj : datetime) :
  get_database w = Replied db ->
  strptime date_str = Return date_obj ->
  run_find db (py "transactions") (selection_query date_obj) = Replied [] ->
  get_recommended_transaction_by_date w date_str =
    ([GetDatabase; Find (py "transactions") (selection_query date_obj)],
     Return (PDict [ (py "message", PStr (py "No unprocessed transactions found for this date"));
                     (py "date", PStr date_str) ]))
  /\ provider_events (fst (get_recommended_transaction_by_date w date_str)) = [].
Proof.
  intros Edb E Efind.
  assert (R : get_recommended_transaction_by_date w date_str =
    ([GetDatabase; Find (py "transactions") (selection_query date_obj)],
     Return (PDict [ (py "message", PStr (py "No unprocessed transactions found for this date"));
                     (py "date", PStr date_str) ]))).
  { unfold get_recommended_transaction_by_date.
    rewrite (fetch_unprocessed_run w date_str db date_obj Edb E), Efind.
    reflexivity. }
  split; [exact R|]. rewrite R. reflexivity.
Qed.

Lemma no_unprocessed_transactions_witness :
  get_recommended_transaction_by_date
    (sample_world [tx_T2] (client_raising connection_error)) (py "03/01/2024") =
    ([GetDatabase; Find (py "transactions") (selection_query march_1_2024)],
     Return (PDict [ (py "message", PStr (py "No unprocessed transactions found for this date"));
                     (py "date", PStr (py "03/01/2024")) ])).
Proof.
  exact (proj1 (no_unprocessed_transactions
    (sample_world [tx_T2] (client_raising connection_error))
    (stored_database [tx_T2]) (py "03/01/2024") march_1_2024
    eq_refl eq_refl eq_refl)).
Defined.

(** ** The provider stage *)

Section Provider.

Variable w : world.

Lemma decode_completion_run (response : completion) (c : choice) (others : list choice)
      (reply_text : pystr) :
  choices response = c :: others ->
  message_content c = Some reply_text ->
  exists cleaned,
    clean_completion_text (strip reply_text) = Return cleaned
    /\ decode_completion w response =
         ([JsonLoads cleaned],
          match json_loads w cleaned with
          | Decoded llm_json => Return llm_json
          | JSONDecodeError =>
              Return (PDict [ (py "error", PStr (py "Failed to parse LLM response as JSON."));
                              (py "raw_response", PStr cleaned) ])
          | DecoderRaised r => Raise (Raised r)
          end).
Proof.
  intros Ec Em.
  destruct (clean_completion_text_returns (strip reply_text)) as (cleaned & E & _).
  exists cleaned. split; [exact E|].
  unfold decode_completion, bind, eval, call_json_loads, ret.
  rewrite Ec. simpl. rewrite Em, E.
  destruct (json_loads w cleaned); reflexivity.
Qed.

Lemma decode_completion_no_choice (response : completion) :
  choices response = [] ->
  decode_completion w response = ([], Raise IndexError).
Proof.
  intros Ec. unfold decode_completion, bind, eval. now rewrite Ec.
Qed.

Lemma decode_completion_no_content (response : completion) (c : choice) (others : list choice) :
  choices response = c :: others ->
  message_content c = None ->
  decode_completion w response = ([], Raise AttributeError).
Proof.
  intros Ec Em. unfold decode_completion, bind, eval. rewrite Ec. simpl. now rewrite Em.
Qed.

(** Once the records are rendered and the client obtained, the run is
    the single call to the provider followed by what its outcome
    commands. *)
Lemma recommend_from_call (date_str : pystr) (tx : document) (txs : list document)
      (descs : list pystr) (client : openai_client) :
  for_each tx_description (tx :: txs) = Return descs ->
  get_openai_client w = Replied client ->
  recommend_from w date_str (tx :: txs) =
    bind ([GetOpenaiClient; ChatCompletionsCreate (request_for descs)],
          match chat_completions_create client (request_for descs) with
          | Replied response => Return (inr response)
          | Faulted f =>
              if exc_is_Exception f then Return (inl f) else Raise (Raised f)
          end)
         (fun attempt =>
            match attempt with
            | inl e =>
                ret (PDict [ (py "error",
                              PStr (py "OpenAI API call failed: " ++ exc_str e)) ])
            | inr response => decode_completion w response
            end).
Proof.
  intros Ed Ec. unfold recommend_from.
  rewrite Ed. unfold eval at 1. unfold bind at 1. simpl app.
  unfold call. rewrite Ec. unfold bind at 1.
  fold (request_for descs).
  unfold try_except_Exception, bind.
  destruct (chat_completions_create client (request_for descs)) as [response|f].
  - destruct (decode_completion w response) as [t r]. reflexivity.
  - destruct (exc_is_Exception f); reflexivity.
Qed.

Lemma recommend_from_prompt_fails (date_str : pystr) (tx : document) (txs : list document)
      (e : py_exn) :
  for_each tx_description (tx :: txs) = Raise e ->
  recommend_from w date_str (tx :: txs) = ([], Raise e).
Proof.
  intros Ed. unfold recommend_from, bind, eval. now rewrite Ed.
Qed.

Lemma recommend_from_no_client (date_str : pystr) (tx : document) (txs : list document)
      (descs : list pystr) (f : raised) :
  for_each tx_description (tx :: txs) = Return descs ->
  get_openai_client w = Faulted f ->
  recommend_from w date_str (tx :: txs) = ([GetOpenaiClient], Raise (Raised f)).
Proof.
  intros Ed Ec. unfold recommend_from, bind, eval, call. now rewrite Ed, Ec.
Qed.

Lemma get_recommended_after_fetch (date_str : pystr) (t : list event) (txs : list document) :
  fetch_unprocessed w date_str = (t, Return txs) ->
  get_recommended_transaction_by_date w date_str =
    (t ++ fst (recommend_from w date_str txs), snd (recommend_from w date_str txs)).
Proof.
  intros E. unfold get_recommended_transaction_by_date, bind. rewrite E.
  now destruct (recommend_from w date_str txs).
Qed.

End Provider.

(** The read of the store touches nothing but the store. *)
Lemma fetch_unprocessed_trace (w : world) (date_str : pystr) :
  fst (fetch_unprocessed w date_str) = [GetDatabase]
  \/ exists date_obj,
       strptime date_str = Return date_obj
       /\ fst (fetch_unprocessed w date_str) =
            [GetDatabase; Find (py "transactions") (selection_query date_obj)].
Proof.
  destruct (get_database w) as [db|f] eqn:Edb.
  - destruct (strptime date_str) as [date_obj|e] eqn:E.
    + right. exists date_obj. split; [reflexivity|].
      now rewrite (fetch_unprocessed_run w date_str db date_obj Edb E).
    + left. now rewrite (fetch_unprocessed_bad_date w date_str db e Edb E).
  - left. now rewrite (fetch_unprocessed_no_database w date_str f Edb).
Qed.

Lemma fetch_unprocessed_quiet (w : world) (date_str : pystr) (t : list event)
      (r : result (list document)) :
  fetch_unprocessed w date_str = (t, r) ->
  provider_events t = [] /\ json_parses t = [].
Proof.
  intros E. destruct (fetch_unprocessed_trace w date_str) as [H | (d & _ & H)];
    rewrite E in H; simpl in H; subst t; split; reflexivity.
Qed.

Lemma json_parses_app (a b : list event) :
  json_parses (a ++ b) = json_parses a ++ json_parses b.
Proof. apply filter_app. Qed.

(** C4, as amended. When the call to the provider raises an exception of a
    class derived from [Exception], the pipeline returns the error object
    built from [str(e)], with no other key, and attempts no JSON parse. An
    exception outside [Exception] propagates, and so do the other faults
    of the provider side: a failing client factory and a reply without a
    choice or without content. *)
Theorem provider_fault_absorbed_only_from_call
  (w : world) (date_str : pystr) (t : list event) (tx : document) (txs : list document)
  (descs : list pystr) :
  fetch_unprocessed w date_str = (t, Return (tx :: txs)) ->
  for_each tx_description (tx :: txs) = Return descs ->
  let run := get_recommended_transaction_by_date w date_str in
  let req := request_for descs in
  (forall client f,
      get_openai_client w = Replied client ->
      chat_completions_create client req = Faulted f ->
      exc_is_Exception f = true ->
      run = (t ++ [GetOpenaiClient; ChatCompletionsCreate req],
             Return (PDict [ (py "error",
                              PStr (py "OpenAI API call failed: " ++ exc_str f)) ]))
      /\ json_parses (fst run) = [])
  /\ (forall client f,
      get_openai_client w = Replied client ->
      chat_completions_create client req = Faulted f ->
      exc_is_Exception f = false ->
      run = (t ++ [GetOpenaiClient; ChatCompletionsCreate req], Raise (Raised f)))
  /\ (forall f,
      get_openai_client w = Faulted f ->
      run = (t ++ [GetOpenaiClient], Raise (Raised f)))
  /\ (forall client response,
      get_openai_client w = Replied client ->
      chat_completions_create client req = Replied response ->
      (choices response = [] -> snd run = Raise IndexError)
      /\ (forall c others, choices response = c :: others ->
            message_content c = None -> snd run = Raise AttributeError)).
Proof.
  intros Ef Ed run req. subst run req.
  rewrite (get_recommended_after_fetch w date_str t (tx :: txs) Ef).
  destruct (fetch_unprocessed_quiet w date_str t _ Ef) as [_ Hj].
  split; [|split; [|split]].
  - intros client f Ec Ecall Hf.
    rewrite (recommend_from_call w date_str tx txs descs client Ed Ec), Ecall.
    unfold bind, ret. rewrite Hf. simpl fst.
    split; [reflexivity|]. rewrite json_parses_app, Hj. reflexivity.
  - intros client f Ec Ecall Hf.
    rewrite (recommend_from_call w date_str tx txs descs client Ed Ec), Ecall.
    unfold bind. rewrite Hf. reflexivity.
  - intros f Ec.
    now rewrite (recommend_from_no_client w date_str tx txs descs f Ed Ec).
  - intros client response Ec Ecall.
    rewrite (recommend_from_call w date_str tx txs descs client Ed Ec), Ecall.
    unfold bind. split.
    + intros Hc. rewrite (decode_completion_no_choice w response Hc). reflexivity.
    + intros c others Hc Hm.
      rewrite (decode_completion_no_content w response c others Hc Hm). reflexivity.
Qed.

Lemma provider_fault_absorbed_only_from_call_witness :
  get_recommended_transaction_by_date
    (sample_world [tx_T1; tx_T2] (client_raising connection_error)) (py "03/01/2024") =
  ([GetDatabase; Find (py "transactions") (selection_query march_1_2024)]
     ++ [GetOpenaiClient;
         ChatCompletionsCreate
           (request_for [py "TransactionID: T1, Type: debit, Balance After Transaction: 500Amount: 20, Category: travel, Desc: Flight"])],
   Return (PDict [ (py "error", PStr (py "OpenAI API call failed: Connection error.")) ])).
Proof.
  exact (proj1 (proj1 (provider_fault_absorbed_only_from_call
    (sample_world [tx_T1; tx_T2] (client_raising connection_error)) (py "03/01/2024")
    [GetDatabase; Find (py "transactions") (selection_query march_1_2024)]
    tx_T1 []
    [py "TransactionID: T1, Type: debit, Balance After Transaction: 500Amount: 20, Category: travel, Desc: Flight"]
    eq_refl eq_refl)
    (client_raising connection_error) connection_error eq_refl eq_refl eq_refl)).
Defined.

(** C4 as stated fails: a provider call interrupted by [KeyboardInterrupt],
    which is not an [Exception], is not turned into an error object; the
    exception reaches the caller. *)
Lemma keyboard_interrupt_propagates :
  let w := sample_world [tx_T1] (client_raising keyboard_interrupt) in
  snd (get_recommended_transaction_by_date w (py "03/01/2024"))
    = Raise (Raised keyboard_interrupt)
  /\ ~ (exists error_object,
          snd (get_recommended_transaction_by_date w (py "03/01/2024"))
            = Return error_object).
Proof.
  split; [reflexivity|]. intros (o & H). vm_compute in H. discriminate H.
Qed.

(** C5, as amended. When the provider replies with a text, that text is
    trimmed and cleaned and the cleaned text is what the decoder is
    given. If the decoder returns a value, the pipeline returns it
    untouched; if it raises [JSONDecodeError], the pipeline returns the
    error object whose [raw_response] is that same cleaned text; an
    exception of any other class raised by the decoder propagates. *)
Theorem reply_is_decoded_or_reported
  (w : world) (date_str : pystr) (t : list event) (tx : document) (txs : list document)
  (descs : list pystr) (client : openai_client) (response : completion)
  (c : choice) (others : list choice) (reply_text : pystr) :
  fetch_unprocessed w date_str = (t, Return (tx :: txs)) ->
  for_each tx_description (tx :: txs) = Return descs ->
  get_openai_client w = Replied client ->
  chat_completions_create client (request_for descs) = Replied response ->
  choices response = c :: others ->
  message_content c = Some reply_text ->
  exists cleaned,
    clean_completion_text (strip reply_text) = Return cleaned
    /\ get_recommended_transaction_by_date w date_str =
         (t ++ [GetOpenaiClient; ChatCompletionsCreate (request_for descs);
                JsonLoads cleaned],
          match json_loads w cleaned with
          | Decoded llm_json => Return llm_json
          | JSONDecodeError =>
              Return (PDict [ (py "error", PStr (py "Failed to parse LLM response as JSON."));
                              (py "raw_response", PStr cleaned) ])
          | DecoderRaised r => Raise (Raised r)
          end).
Proof.
  intros Ef Ed Ec Ecall Hc Hm.
  destruct (decode_completion_run w response c others reply_text Hc Hm)
    as (cleaned & Eclean & Edec).
  exists cleaned. split; [exact Eclean|].
  rewrite (get_recommended_after_fetch w date_str t (tx :: txs) Ef).
  rewrite (recommend_from_call w date_str tx txs descs client Ed Ec), Ecall.
  unfold bind. rewrite Edec. reflexivity.
Qed.

Lemma reply_is_decoded_or_reported_witness :
  snd (get_recommended_transaction_by_date
         (sample_world [tx_T1]
            (client_replying (Some (py "```json" ++ [LF] ++ py "[1]" ++ [LF] ++ py "```"))))
         (py "03/01/2024")) = Return (PList [PInt 1])
  /\ snd (get_recommended_transaction_by_date
            (sample_world [tx_T1] (client_replying (Some (py " Sure! Here you go. "))))
            (py "03/01/2024"))
     = Return (PDict [ (py "error", PStr (py "Failed to parse LLM response as JSON."));
                       (py "raw_response", PStr (py "Sure! Here you go.")) ])
  /\ snd (get_recommended_transaction_by_date
            (sample_world [tx_T1] (client_replying (Some deep_brackets)))
            (py "03/01/2024"))
     = Raise (Raised recursion_error).
Proof.
  split; [|split].
  - destruct (reply_is_decoded_or_reported
      (sample_world [tx_T1]
         (client_replying (Some (py "```json" ++ [LF] ++ py "[1]" ++ [LF] ++ py "```"))))
      (py "03/01/2024") _ tx_T1 [] _ _ _ _ _ _
      eq_refl eq_refl eq_refl eq_refl eq_refl eq_refl) as (cleaned & Ec & R).
    rewrite R. injection Ec as <-. reflexivity.
  - destruct (reply_is_decoded_or_reported
      (sample_world [tx_T1] (client_replying (Some (py " Sure! Here you go. "))))
      (py "03/01/2024") _ tx_T1 [] _ _ _ _ _ _
      eq_refl eq_refl eq_refl eq_refl eq_refl eq_refl) as (cleaned & Ec & R).
    rewrite R. injection Ec as <-. reflexivity.
  - destruct (reply_is_decoded_or_reported
      (sample_world [tx_T1] (client_replying (Some deep_brackets)))
      (py "03/01/2024") _ tx_T1 [] _ _ _ _ _ _
      eq_refl eq_refl eq_refl eq_refl eq_refl eq_refl) as (cleaned & Ec & R).
    rewrite R. injection Ec as <-. reflexivity.
Defined.

(** C5 as stated fails: on a reply of 1500 opening brackets, which is not
    a JSON document, the decoder raises [RecursionError]; the handler
    catches [JSONDecodeError] only, so the pipeline returns neither the
    error object nor a value: the exception reaches the caller. *)
Lemma decoder_recursion_error_propagates :
  let w := sample_world [tx_T1] (client_replying (Some deep_brackets)) in
  clean_completion_text (strip deep_brackets) = Return deep_brackets
  /\ json_loads w deep_brackets = DecoderRaised recursion_error
  /\ snd (get_recommended_transaction_by_date w (py "03/01/2024"))
     = Raise (Raised recursion_error)
  /\ ~ (exists obj,
          snd (get_recommended_transaction_by_date w (py "03/01/2024")) = Return obj).
Proof.
  assert (R : snd (get_recommended_transaction_by_date
                     (sample_world [tx_T1] (client_replying (Some deep_brackets)))
                     (py "03/01/2024"))
              = Raise (Raised recursion_error)) by (vm_compute; reflexivity).
  cbv zeta. repeat split; try (vm_compute; reflexivity); try exact R.
  intros (obj & H). rewrite R in H. discriminate H.
Qed.

(** ** Identifiers *)

Lemma dict_get_setitem_same (d : document) (key : pystr) (v : value) :
  dict_get key (setitem d key v) = Some v.
Proof.
  induction d as [|[k x] d IH]; simpl.
  - now rewrite (proj2 (pystr_eqb_eq key key) eq_refl).
  - destruct (pystr_eqb k key) eqn:E; simpl; now rewrite E.
Qed.

Lemma dict_get_setitem_other (d : document) (key other : pystr) (v : value) :
  pystr_eqb key other = false ->
  dict_get other (setitem d key v) = dict_get other d.
Proof.
  intros N. induction d as [|[k x] d IH]; simpl.
  - now rewrite N.
  - destruct (pystr_eqb k key) eqn:E; simpl.
    + apply pystr_eqb_eq in E. subst k. now rewrite N.
    + now rewrite IH.
Qed.

Lemma stringify_id_returns (tx : document) :
  dict_get (py "_id") tx <> None ->
  stringify_id tx = Return (with_string_id tx) /\ has_string_id (with_string_id tx) = true.
Proof.
  intros H. unfold stringify_id, with_string_id, getitem, has_string_id.
  destruct (dict_get (py "_id") tx) as [id|]; [|congruence].
  simpl. now rewrite dict_get_setitem_same.
Qed.

Lemma for_each_stringify_id (docs : list document) :
  (forall tx, In tx docs -> dict_get (py "_id") tx <> None) ->
  for_each stringify_id docs = Return (map with_string_id docs).
Proof.
  induction docs as [|tx docs IH]; intros H; simpl; [reflexivity|].
  destruct (stringify_id_returns tx (H tx (or_introl eq_refl))) as [-> _].
  simpl. rewrite IH; [reflexivity|]. intros tx' Hin. apply H. now right.
Qed.

Lemma tx_description_ignores_id (tx : document) (id : value) :
  tx_description (setitem tx (py "_id") id) = tx_description tx.
Proof.
  unfold tx_description, getitem.
  now rewrite !dict_get_setitem_other by reflexivity.
Qed.

Lemma for_each_tx_description_ignores_id (txs : list document) (id : value) :
  for_each tx_description (map (fun tx => setitem tx (py "_id") id) txs)
  = for_each tx_description txs.
Proof.
  induction txs as [|tx txs IH]; simpl; [reflexivity|].
  now rewrite tx_description_ignores_id, IH.
Qed.

(** C7, as amended. [fetch_transactions_by_date] hands back every record
    it read with [_id] turned into the string [str(_id)].
    [get_recommended_transaction_by_date] converts nothing: it takes the
    records as the store returned them, and what it does with them does
    not depend on [_id]. *)
Theorem ids_stringified_on_inspection_path
  (w : world) (db : database) (date_str : pystr) (date_obj : datetime)
  (docs : list document) :
  get_database w = Replied db ->
  strptime date_str = Return date_obj ->
  run_find db (py "transactions") (selection_query date_obj) = Replied docs ->
  (forall tx, In tx docs -> dict_get (py "_id") tx <> None) ->
  snd (fetch_transactions_by_date w date_str) = Return (map with_string_id docs)
  /\ Forall (fun tx => has_string_id tx = true) (map with_string_id docs)
  /\ snd (fetch_unprocessed w date_str) = Return docs
  /\ forall id,
       recommend_from w date_str (map (fun tx => setitem tx (py "_id") id) docs)
       = recommend_from w date_str docs.
Proof.
  intros Edb E Efind Hid. repeat split.
  - rewrite (fetch_transactions_run w date_str db date_obj Edb E), Efind.
    simpl. now apply for_each_stringify_id.
  - apply Forall_forall. intros tx Hin. apply in_map_iff in Hin as (tx0 & <- & Hin).
    now apply stringify_id_returns, Hid.
  - now rewrite (fetch_unprocessed_run w date_str db date_obj Edb E), Efind.
  - intros id. destruct docs as [|tx docs]; [reflexivity|].
    unfold recommend_from.
    change (map (fun tx0 => setitem tx0 (py "_id") id) (tx :: docs))
      with (setitem tx (py "_id") id :: map (fun tx0 => setitem tx0 (py "_id") id) docs).
    cbv iota.
    change (setitem tx (py "_id") id :: map (fun tx0 => setitem tx0 (py "_id") id) docs)
      with (map (fun tx0 => setitem tx0 (py "_id") id) (tx :: docs)).
    now rewrite for_each_tx_description_ignores_id.
Qed.

Lemma ids_stringified_on_inspection_path_witness :
  snd (fetch_transactions_by_date (sample_world [tx_T1; tx_T2] (client_replying None))
         (py "03/01/2024"))
  = Return [with_string_id tx_T1]
  /\ dict_get (py "_id") (with_string_id tx_T1) = Some (VStr (py "65e1c0a2f3b4a5d6e7f80911")).
Proof.
  split; [|reflexivity].
  refine (proj1 (ids_stringified_on_inspection_path
    (sample_world [tx_T1; tx_T2] (client_replying None))
    (stored_database [tx_T1; tx_T2]) (py "03/01/2024") march_1_2024 [tx_T1]
    eq_refl eq_refl eq_refl _)).
  intros tx [<- | []]. discriminate.
Defined.

(** C7 as stated fails on the recommendation path: the record read for
    the prompt still carries the store's own identifier. *)
Lemma recommendation_path_keeps_native_id :
  let w := sample_world [tx_T1] (client_replying None) in
  snd (fetch_unprocessed w (py "03/01/2024")) = Return [tx_T1]
  /\ get_recommended_transaction_by_date w (py "03/01/2024")
     = bind (fetch_unprocessed w (py "03/01/2024")) (recommend_from w (py "03/01/2024"))
  /\ dict_get (py "_id") tx_T1 = Some (VObjectId (py "65e1c0a2f3b4a5d6e7f80911"))
  /\ has_string_id tx_T1 = false.
Proof.
  repeat split.
Qed.

(** ** Fence stripping applied twice *)

Lemma clean_idempotent_without_inner_fence_witness :
  rbind (clean_completion_text (py "```json" ++ [LF] ++ py "[1]" ++ [LF] ++ py "```"))
        clean_completion_text
  = clean_completion_text (py "```json" ++ [LF] ++ py "[1]" ++ [LF] ++ py "```").
Proof.
  exact (clean_idempotent_without_inner_fence
           (py "```json" ++ [LF] ++ py "[1]" ++ [LF] ++ py "```") (py "[1]")
           eq_refl eq_refl).
Defined.

(** C2 as stated fails: under two opening fences, one pass removes one
    fence and the next pass removes the other. *)
Lemma clean_twice_differs :
  let x := py "```" ++ [LF] ++ py "```" ++ [LF] ++ py "foo" in
  clean_completion_text x = Return (py "```" ++ [LF] ++ py "foo")
  /\ rbind (clean_completion_text x) clean_completion_text = Return (py "foo")
  /\ rbind (clean_completion_text x) clean_completion_text <> clean_completion_text x.
Proof.
  repeat split. vm_compute. discriminate.
Qed.

(** ** Reading a date written as MM/DD/YYYY *)

Ltac enum_Z m lo n :=
  lazymatch n with
  | O => exfalso; lia
  | S ?n' =>
      let H := fresh in
      destruct (Z.eq_dec m lo) as [H|H];
      [ subst m
      | let lo' := eval compute in (lo + 1)%Z in enum_Z m lo' n' ]
  end.

Lemma digit_char_decimal (n : Z) :
  decimal_value (digit_char n) = Some (n mod 10)%Z
  /\ is_space (digit_char n) = false.
Proof.
  unfold digit_char.
  assert (B : (0 <= n mod 10 < 10)%Z) by (apply Z.mod_pos_bound; lia).
  set (k := (n mod 10)%Z) in *. clearbody k.
  enum_Z k 0%Z 10%nat; split; reflexivity.
Qed.

Lemma hd_error_flat_map {A B} (f : A -> list B) (l : list A) (a : A) (b : B) :
  hd_error l = Some a -> hd_error (f a) = Some b -> hd_error (flat_map f l) = Some b.
Proof.
  destruct l as [|x l]; simpl; [discriminate|].
  intros E. injection E as ->. destruct (f a); simpl; [discriminate|auto].
Qed.

Lemma hd_error_map {A B} (g : A -> B) (l : list A) (a : A) :
  hd_error l = Some a -> hd_error (map g l) = Some (g a).
Proof.
  destruct l; simpl; [discriminate|]. intros E. now injection E as ->.
Qed.

Lemma run_seq_first (r1 r2 : Re.regex) (s : pystr) (h1 h2 : Re.hit) :
  hd_error (Re.run r1 s) = Some h1 ->
  hd_error (Re.run r2 (Re.rest h1)) = Some h2 ->
  hd_error (Re.run (Re.Seq r1 r2) s)
  = Some {| Re.groups := Re.groups h1 ++ Re.groups h2;
            Re.matched := Re.matched h1 ++ Re.matched h2;
            Re.rest := Re.rest h2 |}.
Proof.
  intros E1 E2. simpl.
  eapply hd_error_flat_map; [exact E1|].
  exact (hd_error_map
           (fun h => {| Re.groups := Re.groups h1 ++ Re.groups h;
                        Re.matched := Re.matched h1 ++ Re.matched h;
                        Re.rest := Re.rest h |})
           (Re.run r2 (Re.rest h1)) h2 E2).
Qed.

Lemma run_re_m (m : Z) (rest : pystr) :
  (1 <= m <= 12)%Z ->
  hd_error (Re.run re_m (zero_padded 2 m ++ rest))
  = Some {| Re.groups := [(py "m", zero_padded 2 m)];
            Re.matched := zero_padded 2 m; Re.rest := rest |}
  /\ int_digits (zero_padded 2 m) = Some m.
Proof.
  intros B. enum_Z m 1%Z 12%nat; split; reflexivity.
Qed.

Lemma run_re_d (d : Z) (rest : pystr) :
  (1 <= d <= 31)%Z ->
  hd_error (Re.run re_d (zero_padded 2 d ++ rest))
  = Some {| Re.groups := [(py "d", zero_padded 2 d)];
            Re.matched := zero_padded 2 d; Re.rest := rest |}
  /\ int_digits (zero_padded 2 d) = Some d.
Proof.
  intros B. enum_Z d 1%Z 31%nat; split; reflexivity.
Qed.

Lemma run_re_Y_digits (a b c d : char) :
  is_decimal a = true -> is_decimal b = true ->
  is_decimal c = true -> is_decimal d = true ->
  hd_error (Re.run re_Y [a; b; c; d])
  = Some {| Re.groups := [(py "Y", [a; b; c; d])];
            Re.matched := [a; b; c; d]; Re.rest := [] |}.
Proof.
  intros Ha Hb Hc Hd. unfold re_Y. simpl. rewrite Ha. simpl. rewrite Hb. simpl.
  rewrite Hc. simpl. rewrite Hd. reflexivity.
Qed.

Lemma int_digits_four (a b c d : char) (va vb vc vd : Z) :
  is_space a = false -> is_space b = false ->
  is_space c = false -> is_space d = false ->
  decimal_value a = Some va -> decimal_value b = Some vb ->
  decimal_value c = Some vc -> decimal_value d = Some vd ->
  int_digits [a; b; c; d] = Some (1000 * va + 100 * vb + 10 * vc + vd)%Z.
Proof.
  intros Sa Sb Sc Sd Da Db Dc Dd. unfold int_digits, strip.
  cbn [lstrip]. rewrite Sa. cbn [rstrip]. rewrite Sd.
  cbn [fold_left]. rewrite Da, Db, Dc, Dd. f_equal. lia.
Qed.

Lemma run_lit (c : char) (s : pystr) :
  hd_error (Re.run (Re.Lit c) (c :: s))
  = Some {| Re.groups := []; Re.matched := [c]; Re.rest := s |}.
Proof. simpl. now rewrite N.eqb_refl. Qed.

Lemma zero_padded_four (y : Z) :
  (0 <= y <= 9999)%Z ->
  hd_error (Re.run re_Y (zero_padded 4 y))
  = Some {| Re.groups := [(py "Y", zero_padded 4 y)];
            Re.matched := zero_padded 4 y; Re.rest := [] |}
  /\ int_digits (zero_padded 4 y) = Some y.
Proof.
  intros B. cbn [zero_padded app].
  destruct (digit_char_decimal (y / 10 / 10 / 10)) as [Da Sa].
  destruct (digit_char_decimal (y / 10 / 10)) as [Db Sb].
  destruct (digit_char_decimal (y / 10)) as [Dc Sc].
  destruct (digit_char_decimal y) as [Dd Sd].
  split.
  - apply run_re_Y_digits; unfold is_decimal; now rewrite ?Da, ?Db, ?Dc, ?Dd.
  - rewrite (int_digits_four _ _ _ _ _ _ _ _ Sa Sb Sc Sd Da Db Dc Dd).
    f_equal. clear Da Db Dc Dd Sa Sb Sc Sd. Z.div_mod_to_equations. lia.
Qed.

Lemma days_in_month_le_31 (y m : Z) : (days_in_month y m <= 31)%Z.
Proof.
  unfold days_in_month.
  destruct (m =? 2)%Z; [destruct (is_leap y); lia|].
  destruct ((m =? 4) || (m =? 6) || (m =? 9) || (m =? 11))%Z; lia.
Qed.

Lemma between_spec (lo hi x : Z) : between lo hi x = true <-> (lo <= x <= hi)%Z.
Proof. unfold between. rewrite andb_true_iff, !Z.leb_le. tauto. Qed.

(** The text of a month, a slash, the text of a day, a slash and four
    digits of a year are read as that day at midnight, provided the month
    and day groups take their texts whole. *)
Lemma strptime_of_parts (tm td : pystr) (y m d : Z) :
  (forall rest,
      hd_error (Re.run re_m (tm ++ chr "/" :: rest))
      = Some {| Re.groups := [(py "m", tm)]; Re.matched := tm;
                Re.rest := chr "/" :: rest |}) ->
  int_digits tm = Some m ->
  (forall rest,
      hd_error (Re.run re_d (td ++ chr "/" :: rest))
      = Some {| Re.groups := [(py "d", td)]; Re.matched := td;
                Re.rest := chr "/" :: rest |}) ->
  int_digits td = Some d ->
  valid_date y m d = true ->
  strptime (tm ++ py "/" ++ td ++ py "/" ++ zero_padded 4 y)
  = Return {| year := y; month := m; day := d;
              hour := 0; minute := 0; second := 0; microsecond := 0 |}.
Proof.
  intros Rm Im Rd Id V. unfold valid_date in V.
  apply andb_true_iff in V as [V Hd]. apply andb_true_iff in V as [Hy Hm].
  assert (By : (0 <= y <= 9999)%Z) by (apply between_spec in Hy; lia).
  destruct (zero_padded_four y By) as [RY IY].
  specialize (Rd (zero_padded 4 y)).
  specialize (Rm (td ++ chr "/" :: zero_padded 4 y)).
  pose proof (run_seq_first _ _ _ _ _ (run_lit (chr "/") (zero_padded 4 y)) RY) as R4.
  pose proof (run_seq_first _ _ _ _ _ Rd R4) as R3.
  pose proof (run_seq_first (Re.Lit (chr "/")) _ _ _ _
                (run_lit (chr "/") (td ++ chr "/" :: zero_padded 4 y)) R3) as R2.
  pose proof (run_seq_first _ _ _ _ _ Rm R2) as R1.
  unfold strptime, Re.match_, format_regex.
  change (tm ++ py "/" ++ td ++ py "/" ++ zero_padded 4 y)
    with (tm ++ chr "/" :: td ++ chr "/" :: zero_padded 4 y).
  rewrite R1. cbn [Re.rest Re.groups app].
  assert (Gm : forall am ad aY,
             Re.group (py "m") [(py "m", am); (py "d", ad); (py "Y", aY)] = Some am)
    by reflexivity.
  assert (Gd : forall am ad aY,
             Re.group (py "d") [(py "m", am); (py "d", ad); (py "Y", aY)] = Some ad)
    by reflexivity.
  assert (GY : forall am ad aY,
             Re.group (py "Y") [(py "m", am); (py "d", ad); (py "Y", aY)] = Some aY)
    by reflexivity.
  unfold group_int. rewrite Gm, Gd, GY, Im, Id, IY. cbn [rbind].
  apply new_datetime_ok; auto.
Qed.

Lemma valid_date_bounds (y m d : Z) :
  valid_date y m d = true -> (1 <= m <= 12)%Z /\ (1 <= d <= 31)%Z.
Proof.
  unfold valid_date. intros V.
  apply andb_true_iff in V as [V Hd]. apply andb_true_iff in V as [_ Hm].
  apply between_spec in Hm, Hd. pose proof (days_in_month_le_31 y m). lia.
Qed.

(** A valid date written as MM/DD/YYYY is read back as that day at
    midnight. *)
Lemma strptime_format_mdY (y m d : Z) :
  valid_date y m d = true ->
  strptime (format_mdY m d y)
  = Return {| year := y; month := m; day := d;
              hour := 0; minute := 0; second := 0; microsecond := 0 |}.
Proof.
  intros V. destruct (valid_date_bounds y m d V) as [Bm Bd].
  apply strptime_of_parts; try exact V.
  - intros rest. now apply run_re_m.
  - now apply (run_re_m m []).
  - intros rest. now apply run_re_d.
  - now apply (run_re_d d []).
Qed.

Lemma run_re_m_unpadded (m : Z) (rest : pystr) :
  (1 <= m <= 12)%Z ->
  hd_error (Re.run re_m (str_int m ++ chr "/" :: rest))
  = Some {| Re.groups := [(py "m", str_int m)];
            Re.matched := str_int m; Re.rest := chr "/" :: rest |}
  /\ int_digits (str_int m) = Some m.
Proof.
  intros B. enum_Z m 1%Z 12%nat; split; reflexivity.
Qed.

Lemma run_re_d_unpadded (d : Z) (rest : pystr) :
  (1 <= d <= 31)%Z ->
  hd_error (Re.run re_d (str_int d ++ chr "/" :: rest))
  = Some {| Re.groups := [(py "d", str_int d)];
            Re.matched := str_int d; Re.rest := chr "/" :: rest |}
  /\ int_digits (str_int d) = Some d.
Proof.
  intros B. enum_Z d 1%Z 31%nat; split; reflexivity.
Qed.

Lemma strptime_format_unpadded (y m d : Z) :
  valid_date y m d = true ->
  strptime (format_unpadded m d y)
  = Return {| year := y; month := m; day := d;
              hour := 0; minute := 0; second := 0; microsecond := 0 |}.
Proof.
  intros V. destruct (valid_date_bounds y m d V) as [Bm Bd].
  apply strptime_of_parts; try exact V.
  - intros rest. now apply run_re_m_unpadded.
  - now apply (run_re_m_unpadded m []).
  - intros rest. now apply run_re_d_unpadded.
  - now apply (run_re_d_unpadded d []).
Qed.

(** ** The day window of the two entry points *)

Lemma fetch_traces_agree (w : world) (date_str : pystr) :
  fst (fetch_transactions_by_date w date_str) = fst (fetch_unprocessed w date_str).
Proof.
  destruct (get_database w) as [db|f] eqn:Edb.
  - destruct (strptime date_str) as [date_obj|e] eqn:E.
    + now rewrite (fetch_transactions_run w date_str db date_obj Edb E),
                  (fetch_unprocessed_run w date_str db date_obj Edb E).
    + now rewrite (fetch_transactions_bad_date w date_str db e Edb E),
                  (fetch_unprocessed_bad_date w date_str db e Edb E).
  - rewrite (fetch_unprocessed_no_database w date_str f Edb).
    unfold fetch_transactions_by_date, bind, call. now rewrite Edb.
Qed.

Lemma queries_issued_app (a b : list event) :
  queries_issued (a ++ b) = queries_issued a ++ queries_issued b.
Proof.
  induction a as [|ev a IH]; simpl; [reflexivity|].
  destruct ev; simpl; now rewrite IH.
Qed.

Lemma decode_completion_no_query (w : world) (response : completion) :
  queries_issued (fst (decode_completion w response)) = [].
Proof.
  destruct (choices response) as [|c others] eqn:Ec.
  - now rewrite (decode_completion_no_choice w response Ec).
  - destruct (message_content c) as [text|] eqn:Em.
    + destruct (decode_completion_run w response c others text Ec Em) as (cl & _ & ->).
      reflexivity.
    + now rewrite (decode_completion_no_content w response c others Ec Em).
Qed.

(** Nothing after the read of the store goes back to the store. *)
Lemma recommend_from_no_query (w : world) (date_str : pystr) (txs : list document) :
  queries_issued (fst (recommend_from w date_str txs)) = [].
Proof.
  destruct txs as [|tx txs]; [reflexivity|].
  destruct (for_each tx_description (tx :: txs)) as [descs|e] eqn:Ed.
  - destruct (get_openai_client w) as [client|f] eqn:Ec.
    + rewrite (recommend_from_call w date_str tx txs descs client Ed Ec).
      unfold bind, ret.
      destruct (chat_completions_create client (request_for descs)) as [response|f].
      * pose proof (decode_completion_no_query w response) as Q.
        destruct (decode_completion w response) as [t r]. simpl in *. exact Q.
      * destruct (exc_is_Exception f); reflexivity.
    + now rewrite (recommend_from_no_client w date_str tx txs descs f Ed Ec).
  - now rewrite (recommend_from_prompt_fails w date_str tx txs e Ed).
Qed.

Lemma entry_points_issue_same_queries (w : world) (date_str : pystr) :
  queries_issued (fst (get_recommended_transaction_by_date w date_str))
  = queries_issued (fst (fetch_transactions_by_date w date_str)).
Proof.
  rewrite fetch_traces_agree.
  destruct (fetch_unprocessed w date_str) as [t [txs|e]] eqn:E.
  - rewrite (get_recommended_after_fetch w date_str t txs E). simpl fst.
    now rewrite queries_issued_app, recommend_from_no_query, app_nil_r.
  - unfold get_recommended_transaction_by_date, bind. now rewrite E.
Qed.

(** C6. For a valid date written as MM/DD/YYYY, each entry point sends the
    store exactly one filter, and its window runs from 00:00:00 to
    23:59:59 of that very day. Whatever the date string, the two entry
    points send the same filters. *)
Theorem entry_points_share_day_window (w : world) (db : database) (y m d : Z) :
  get_database w = Replied db ->
  valid_date y m d = true ->
  let start_of_day := {| year := y; month := m; day := d;
                         hour := 0; minute := 0; second := 0; microsecond := 0 |} in
  let end_of_day := {| year := y; month := m; day := d;
                       hour := 23; minute := 59; second := 59; microsecond := 0 |} in
  map window (queries_issued (fst (fetch_transactions_by_date w (format_mdY m d y))))
    = [(start_of_day, end_of_day)]
  /\ map window (queries_issued (fst (get_recommended_transaction_by_date w (format_mdY m d y))))
    = [(start_of_day, end_of_day)]
  /\ forall date_str,
       queries_issued (fst (get_recommended_transaction_by_date w date_str))
       = queries_issued (fst (fetch_transactions_by_date w date_str)).
Proof.
  intros Edb V start_of_day end_of_day.
  assert (F : map window (queries_issued (fst (fetch_transactions_by_date w (format_mdY m d y))))
              = [(start_of_day, end_of_day)]).
  { rewrite (fetch_transactions_run w _ db _ Edb (strptime_format_mdY y m d V)).
    reflexivity. }
  split; [exact F|]. split.
  - now rewrite entry_points_issue_same_queries.
  - apply entry_points_issue_same_queries.
Qed.

Lemma entry_points_share_day_window_witness :
  format_mdY 3 1 2024 = py "03/01/2024"
  /\ map window (queries_issued (fst (fetch_transactions_by_date
       (sample_world [tx_T1] (client_replying None)) (py "03/01/2024"))))
     = [(march_1_2024, at_time march_1_2024 23 59 59)]
  /\ map window (queries_issued (fst (get_recommended_transaction_by_date
       (sample_world [tx_T1] (client_replying None)) (py "03/01/2024"))))
     = [(march_1_2024, at_time march_1_2024 23 59 59)].
Proof.
  split; [reflexivity|].
  pose proof (entry_points_share_day_window
                (sample_world [tx_T1] (client_replying None)) (stored_database [tx_T1])
                2024 3 1 eq_refl eq_refl) as (F & R & _).
  split; [exact F | exact R].
Defined.

(** ** Order and number of the calls *)

Lemma decode_completion_rank (w : world) (response : completion) :
  map call_rank (fst (decode_completion w response)) = []
  \/ map call_rank (fst (decode_completion w response)) = [4].
Proof.
  destruct (choices response) as [|c others] eqn:Ec.
  - left. now rewrite (decode_completion_no_choice w response Ec).
  - destruct (message_content c) as [text|] eqn:Em.
    + right.
      destruct (decode_completion_run w response c others text Ec Em) as (cl & _ & ->).
      reflexivity.
    + left. now rewrite (decode_completion_no_content w response c others Ec Em).
Qed.

Lemma recommend_from_rank (w : world) (date_str : pystr) (txs : list document) :
  exists n, n <= 3 /\ map call_rank (fst (recommend_from w date_str txs)) = seq 2 n.
Proof.
  destruct txs as [|tx txs]; [exists 0; split; [lia|reflexivity]|].
  destruct (for_each tx_description (tx :: txs)) as [descs|e] eqn:Ed.
  - destruct (get_openai_client w) as [client|f] eqn:Ec.
    + rewrite (recommend_from_call w date_str tx txs descs client Ed Ec).
      unfold bind, ret.
      destruct (chat_completions_create client (request_for descs)) as [response|f].
      * destruct (decode_completion_rank w response) as [R|R];
          destruct (decode_completion w response) as [t r]; simpl in *.
        -- exists 2. split; [lia|]. simpl. now rewrite R.
        -- exists 3. split; [lia|]. simpl. now rewrite R.
      * exists 2. split; [lia|]. destruct (exc_is_Exception f); reflexivity.
    + exists 1. split; [lia|].
      now rewrite (recommend_from_no_client w date_str tx txs descs f Ed Ec).
  - exists 0. split; [lia|].
    now rewrite (recommend_from_prompt_fails w date_str tx txs e Ed).
Qed.

(** X1. One run of either entry point calls each collaborator at most once and
    in a fixed order: the database handle, the query, and for the
    recommendation the client, the completion and the decoder; each call
    happens only if the one before it did. Nothing is retried. *)
Theorem calls_happen_once_in_order (w : world) (date_str : pystr) :
  (exists n, n <= 5
     /\ map call_rank (fst (get_recommended_transaction_by_date w date_str)) = seq 0 n)
  /\ (exists n, 1 <= n <= 2
     /\ map call_rank (fst (fetch_transactions_by_date w date_str)) = seq 0 n).
Proof.
  split.
  - destruct (fetch_unprocessed w date_str) as [t [txs|e]] eqn:E.
    + rewrite (get_recommended_after_fetch w date_str t txs E). simpl fst.
      destruct (recommend_from_rank w date_str txs) as (n & Hn & R).
      rewrite map_app, R.
      destruct (fetch_unprocessed_trace w date_str) as [H | (d & _ & H)];
        rewrite E in H; simpl in H; subst t.
      * unfold fetch_unprocessed, bind, call, eval in E.
        destruct (get_database w); [|discriminate].
        destruct (strptime date_str) as [d|]; [|discriminate].
        destruct (new_datetime (year d) (month d) (day d) 0 0 0); [|discriminate].
        destruct (new_datetime (year d) (month d) (day d) 23 59 59); discriminate.
      * exists (2 + n). split; [lia|]. reflexivity.
    + unfold get_recommended_transaction_by_date, bind. rewrite E. simpl fst.
      destruct (fetch_unprocessed_trace w date_str) as [H | (d & _ & H)];
        rewrite E in H; simpl in H; subst t.
      * exists 1. split; [lia|reflexivity].
      * exists 2. split; [lia|reflexivity].
  - rewrite fetch_traces_agree.
    destruct (fetch_unprocessed_trace w date_str) as [H | (d & _ & H)]; rewrite H.
    + exists 1. split; [lia|reflexivity].
    + exists 2. split; [lia|reflexivity].
Qed.

(** X2. Whatever either entry point sends to the store is the selection query
    of the day the date string parses to: collection [transactions], the
    window of that day, and the flag at [False]. *)
Theorem every_query_is_the_selection_query (w : world) (date_str : pystr) (q : query) :
  In q (queries_issued (fst (fetch_transactions_by_date w date_str)))
  \/ In q (queries_issued (fst (get_recommended_transaction_by_date w date_str))) ->
  exists date_obj,
    strptime date_str = Return date_obj
    /\ q = selection_query date_obj
    /\ is_processed_for_recommendation q = Some false
    /\ window q = (at_time date_obj 0 0 0, at_time date_obj 23 59 59).
Proof.
  rewrite entry_points_issue_same_queries, fetch_traces_agree.
  intros H. assert (Hq : In q (queries_issued (fst (fetch_unprocessed w date_str)))) by tauto.
  clear H.
  destruct (fetch_unprocessed_trace w date_str) as [H | (d & E & H)]; rewrite H in Hq.
  - destruct Hq.
  - destruct Hq as [<- | []]. exists d. repeat split. exact E.
Qed.

Lemma every_query_is_the_selection_query_witness :
  exists date_obj,
    strptime (py "3/1/2024") = Return date_obj
    /\ selection_query march_1_2024 = selection_query date_obj
    /\ is_processed_for_recommendation (selection_query march_1_2024) = Some false
    /\ window (selection_query march_1_2024)
       = (at_time date_obj 0 0 0, at_time date_obj 23 59 59).
Proof.
  exact (every_query_is_the_selection_query
           (sample_world [tx_T1] (client_replying None)) (py "3/1/2024")
           (selection_query march_1_2024) (or_introl (or_introl eq_refl))).
Defined.

(** ** Faults of the store *)

(** X3. A fault of the store is never absorbed, whatever its class: when the
    database handle cannot be obtained, or when the query fails, both
    entry points raise that very fault and the provider is not
    contacted. *)
Theorem repository_faults_propagate (w : world) (date_str : pystr) :
  (forall f, get_database w = Faulted f ->
     fetch_transactions_by_date w date_str = ([GetDatabase], Raise (Raised f))
     /\ get_recommended_transaction_by_date w date_str = ([GetDatabase], Raise (Raised f)))
  /\ (forall db date_obj f,
        get_database w = Replied db ->
        strptime date_str = Return date_obj ->
        run_find db (py "transactions") (selection_query date_obj) = Faulted f ->
        fetch_transactions_by_date w date_str =
          ([GetDatabase; Find (py "transactions") (selection_query date_obj)],
           Raise (Raised f))
        /\ get_recommended_transaction_by_date w date_str =
          ([GetDatabase; Find (py "transactions") (selection_query date_obj)],
           Raise (Raised f))).
Proof.
  split.
  - intros f E. split.
    + unfold fetch_transactions_by_date, bind, call. now rewrite E.
    + unfold get_recommended_transaction_by_date, bind.
      now rewrite (fetch_unprocessed_no_database w date_str f E).
  - intros db date_obj f Edb E Ef. split.
    + now rewrite (fetch_transactions_run w date_str db date_obj Edb E), Ef.
    + unfold get_recommended_transaction_by_date, bind.
      now rewrite (fetch_unprocessed_run w date_str db date_obj Edb E), Ef.
Qed.

(** ** Records with a missing key *)

Lemma for_each_first_failure {A B} (body : A -> result B) (pre : list A) (x : A)
      (post : list A) (e : py_exn) :
  (forall a, In a pre -> exists b, body a = Return b) ->
  body x = Raise e ->
  for_each body (pre ++ x :: post) = Raise e.
Proof.
  intros Hpre Hx. induction pre as [|a pre IH]; simpl.
  - now rewrite Hx.
  - destruct (Hpre a (or_introl eq_refl)) as (b & ->). simpl.
    rewrite IH; [reflexivity|]. intros a' Hin. apply Hpre. now right.
Qed.

(** X4. A record without [_id] makes [fetch_transactions_by_date] raise
    [KeyError('_id')]: the records converted before it are not returned. *)
Theorem record_without_id_raises_KeyError
  (w : world) (db : database) (date_str : pystr) (date_obj : datetime)
  (pre post : list document) (tx : document) :
  get_database w = Replied db ->
  strptime date_str = Return date_obj ->
  run_find db (py "transactions") (selection_query date_obj) = Replied (pre ++ tx :: post) ->
  (forall a, In a pre -> dict_get (py "_id") a <> None) ->
  dict_get (py "_id") tx = None ->
  fetch_transactions_by_date w date_str =
    ([GetDatabase; Find (py "transactions") (selection_query date_obj)],
     Raise (KeyError (py "_id"))).
Proof.
  intros Edb E Ef Hpre Htx.
  rewrite (fetch_transactions_run w date_str db date_obj Edb E), Ef.
  f_equal. apply for_each_first_failure.
  - intros a Hin. exists (with_string_id a). now apply stringify_id_returns, Hpre.
  - unfold stringify_id, getitem. now rewrite Htx.
Qed.

Lemma record_without_id_raises_KeyError_witness :
  fetch_transactions_by_date
    (sample_world [tx_T1; tl tx_T1] (client_replying None)) (py "03/01/2024")
  = ([GetDatabase; Find (py "transactions") (selection_query march_1_2024)],
     Raise (KeyError (py "_id"))).
Proof.
  refine (record_without_id_raises_KeyError
            (sample_world [tx_T1; tl tx_T1] (client_replying None))
            (stored_database [tx_T1; tl tx_T1]) (py "03/01/2024") march_1_2024
            [tx_T1] [] (tl tx_T1) eq_refl eq_refl eq_refl _ eq_refl).
  intros a [<- | []]. discriminate.
Defined.

Lemma tx_description_missing_field (tx : document) :
  (exists k, In k prompt_fields /\ dict_get k tx = None) ->
  exists k, In k prompt_fields /\ tx_description tx = Raise (KeyError k).
Proof.
  intros (k0 & Hin & Hk0). unfold tx_description, getitem.
  destruct (dict_get (py "transaction_id") tx) eqn:E1;
    [|exists (py "transaction_id"); split; [simpl; tauto | reflexivity]].
  destruct (dict_get (py "transaction_type") tx) eqn:E2;
    [|exists (py "transaction_type"); split; [simpl; tauto | reflexivity]].
  destruct (dict_get (py "balance_after_transaction") tx) eqn:E3;
    [|exists (py "balance_after_transaction"); split; [simpl; tauto | reflexivity]].
  destruct (dict_get (py "amount") tx) eqn:E4;
    [|exists (py "amount"); split; [simpl; tauto | reflexivity]].
  destruct (dict_get (py "merchant_category") tx) eqn:E5;
    [|exists (py "merchant_category"); split; [simpl; tauto | reflexivity]].
  destruct (dict_get (py "description") tx) eqn:E6;
    [|exists (py "description"); split; [simpl; tauto | reflexivity]].
  exfalso. simpl in Hin.
  repeat (destruct Hin as [<- | Hin]; [congruence|]). exact Hin.
Qed.

Lemma tx_description_outcome (tx : document) :
  (exists text, tx_description tx = Return text)
  \/ (exists k, In k prompt_fields /\ tx_description tx = Raise (KeyError k)).
Proof.
  unfold tx_description, getitem.
  destruct (dict_get (py "transaction_id") tx);
    [|right; exists (py "transaction_id"); split; [simpl; tauto | reflexivity]].
  destruct (dict_get (py "transaction_type") tx);
    [|right; exists (py "transaction_type"); split; [simpl; tauto | reflexivity]].
  destruct (dict_get (py "balance_after_transaction") tx);
    [|right; exists (py "balance_after_transaction"); split; [simpl; tauto | reflexivity]].
  destruct (dict_get (py "amount") tx);
    [|right; exists (py "amount"); split; [simpl; tauto | reflexivity]].
  destruct (dict_get (py "merchant_category") tx);
    [|right; exists (py "merchant_category"); split; [simpl; tauto | reflexivity]].
  destruct (dict_get (py "description") tx);
    [|right; exists (py "description"); split; [simpl; tauto | reflexivity]].
  left. eexists. reflexivity.
Qed.

Lemma for_each_tx_description_fails (txs : list document) (tx : document) :
  In tx txs ->
  (exists k, In k prompt_fields /\ dict_get k tx = None) ->
  exists k, In k prompt_fields /\ for_each tx_description txs = Raise (KeyError k).
Proof.
  intros Hin Hmiss. induction txs as [|a txs IH]; [destruct Hin|].
  simpl. destruct (tx_description_outcome a) as [(text & Ea) | (k & Hk & Ea)]; rewrite Ea.
  - simpl. destruct Hin as [-> | Hin].
    + destruct (tx_description_missing_field tx Hmiss) as (k & _ & E).
      rewrite E in Ea. discriminate.
    + destruct (IH Hin) as (k & Hk & ->). exists k. split; [exact Hk|reflexivity].
  - exists k. split; [exact Hk|reflexivity].
Qed.

(** X5. When one of the records read lacks one of the six fields the prompt
    names, [get_recommended_transaction_by_date] raises [KeyError] for
    such a field while it renders the records: the client is not even
    asked for, and no completion is requested. *)
Theorem record_without_prompt_field_stops_before_provider
  (w : world) (date_str : pystr) (t : list event) (txs : list document) (tx : document) :
  fetch_unprocessed w date_str = (t, Return txs) ->
  In tx txs ->
  (exists k, In k prompt_fields /\ dict_get k tx = None) ->
  exists k,
    In k prompt_fields
    /\ get_recommended_transaction_by_date w date_str = (t, Raise (KeyError k))
    /\ provider_events t = [].
Proof.
  intros E Hin Hmiss.
  destruct (for_each_tx_description_fails txs tx Hin Hmiss) as (k & Hk & Ed).
  exists k. split; [exact Hk|]. split.
  - rewrite (get_recommended_after_fetch w date_str t txs E).
    destruct txs as [|a txs]; [destruct Hin|].
    rewrite (recommend_from_prompt_fails w date_str a txs _ Ed). simpl.
    now rewrite app_nil_r.
  - now destruct (fetch_unprocessed_quiet w date_str t _ E).
Qed.

Lemma record_without_prompt_field_stops_before_provider_witness :
  exists k,
    In k prompt_fields
    /\ get_recommended_transaction_by_date
         (sample_world [tx_T1; firstn 4 tx_T1 ++ skipn 5 tx_T1] (client_replying None))
         (py "03/01/2024")
       = ([GetDatabase; Find (py "transactions") (selection_query march_1_2024)],
          Raise (KeyError k))
    /\ provider_events [GetDatabase; Find (py "transactions") (selection_query march_1_2024)] = [].
Proof.
  refine (record_without_prompt_field_stops_before_provider
            (sample_world [tx_T1; firstn 4 tx_T1 ++ skipn 5 tx_T1] (client_replying None))
            (py "03/01/2024") _ [tx_T1; firstn 4 tx_T1 ++ skipn 5 tx_T1]
            (firstn 4 tx_T1 ++ skipn 5 tx_T1) eq_refl (or_intror (or_introl eq_refl)) _).
  exists (py "amount"). split; [simpl; tauto | reflexivity].
Defined.

(** ** What the recommendation returns *)

Lemma decode_completion_returns (w : world) (response : completion) (obj : pyobj) :
  snd (decode_completion w response) = Return obj ->
  exists cleaned,
    strip cleaned = cleaned
    /\ fst (decode_completion w response) = [JsonLoads cleaned]
    /\ (json_loads w cleaned = Decoded obj
        \/ (json_loads w cleaned = JSONDecodeError
            /\ obj = PDict [ (py "error", PStr (py "Failed to parse LLM response as JSON."));
                             (py "raw_response", PStr cleaned) ])).
Proof.
  destruct (choices response) as [|c others] eqn:Ec.
  - rewrite (decode_completion_no_choice w response Ec). discriminate.
  - destruct (message_content c) as [text|] eqn:Em.
    + destruct (decode_completion_run w response c others text Ec Em) as (cl & Ecl & ->).
      destruct (clean_completion_text_returns (strip text)) as (cl' & Ecl' & Hs).
      rewrite Ecl in Ecl'. injection Ecl' as <-.
      simpl. intros E. exists cl.
      split; [exact Hs|]. split; [reflexivity|].
      destruct (json_loads w cl); [| |discriminate E]; injection E as <-;
        [left; reflexivity | right; split; reflexivity].
    + rewrite (decode_completion_no_content w response c others Ec Em). discriminate.
Qed.

(** X6. Whenever [get_recommended_transaction_by_date] returns, the object is
    of one of four kinds: the no-data message with the date string as
    given; the one-key error object of a provider exception derived from
    [Exception]; the two-key error object whose [raw_response] is a
    trimmed text the decoder rejected; or the value the decoder produced,
    as it is. *)
Theorem returned_object_kinds (w : world) (date_str : pystr) (obj : pyobj) :
  snd (get_recommended_transaction_by_date w date_str) = Return obj ->
  obj = PDict [ (py "message", PStr (py "No unprocessed transactions found for this date"));
                (py "date", PStr date_str) ]
  \/ (exists f, exc_is_Exception f = true
        /\ obj = PDict [ (py "error", PStr (py "OpenAI API call failed: " ++ exc_str f)) ])
  \/ (exists cleaned, strip cleaned = cleaned /\ json_loads w cleaned = JSONDecodeError
        /\ obj = PDict [ (py "error", PStr (py "Failed to parse LLM response as JSON."));
                         (py "raw_response", PStr cleaned) ])
  \/ (exists cleaned, strip cleaned = cleaned /\ json_loads w cleaned = Decoded obj).
Proof.
  destruct (fetch_unprocessed w date_str) as [t [txs|e]] eqn:E.
  2:{ unfold get_recommended_transaction_by_date, bind. rewrite E. discriminate. }
  rewrite (get_recommended_after_fetch w date_str t txs E). simpl snd.
  destruct txs as [|tx txs].
  { simpl. intros H. injection H as <-. now left. }
  destruct (for_each tx_description (tx :: txs)) as [descs|e] eqn:Ed.
  2:{ rewrite (recommend_from_prompt_fails w date_str tx txs e Ed). discriminate. }
  destruct (get_openai_client w) as [client|f] eqn:Ec.
  2:{ rewrite (recommend_from_no_client w date_str tx txs descs f Ed Ec). discriminate. }
  rewrite (recommend_from_call w date_str tx txs descs client Ed Ec).
  unfold bind, ret.
  destruct (chat_completions_create client (request_for descs)) as [response|f].
  - pose proof (decode_completion_returns w response obj) as D.
    destruct (decode_completion w response) as [t' r]. simpl in *.
    intros H. destruct (D H) as (cl & Hs & _ & [Hj | [Hj ->]]).
    + right; right; right. now exists cl.
    + right; right; left. now exists cl.
  - destruct (exc_is_Exception f) eqn:Hf; simpl; [|discriminate].
    intros H. injection H as <-. right; left. now exists f.
Qed.

Lemma returned_object_kinds_witness :
  PList [PInt 1]
    = PDict [ (py "message", PStr (py "No unprocessed transactions found for this date"));
              (py "date", PStr (py "03/01/2024")) ]
  \/ (exists f, exc_is_Exception f = true
        /\ PList [PInt 1]
           = PDict [ (py "error", PStr (py "OpenAI API call failed: " ++ exc_str f)) ])
  \/ (exists cleaned, strip cleaned = cleaned /\ loads_stub cleaned = JSONDecodeError
        /\ PList [PInt 1]
           = PDict [ (py "error", PStr (py "Failed to parse LLM response as JSON."));
                     (py "raw_response", PStr cleaned) ])
  \/ (exists cleaned, strip cleaned = cleaned /\ loads_stub cleaned = Decoded (PList [PInt 1])).
Proof.
  exact (returned_object_kinds
           (sample_world [tx_T1] (client_replying (Some (py "[1]"))))
           (py "03/01/2024") (PList [PInt 1]) eq_refl).
Defined.

(** ** What the prompt reads *)

Lemma tx_description_reads_prompt_fields (a b : document) :
  (forall k, In k prompt_fields -> dict_get k a = dict_get k b) ->
  tx_description a = tx_description b.
Proof.
  intros H. unfold tx_description, getitem.
  rewrite (H (py "transaction_id")), (H (py "transaction_type")),
    (H (py "balance_after_transaction")), (H (py "amount")),
    (H (py "merchant_category")), (H (py "description"));
    simpl; tauto.
Qed.

(** X7. The recommendation depends on the records only through the six
    fields of the prompt: two lists of records that agree on those
    fields, record by record, give the same calls, the same request to
    the provider and the same outcome. No other field of a record (the
    date, the flag, [_id]) reaches the provider. *)
Theorem recommendation_reads_prompt_fields_only
  (w : world) (date_str : pystr) (txs txs' : list document) :
  Forall2 (fun a b => forall k, In k prompt_fields -> dict_get k a = dict_get k b) txs txs' ->
  recommend_from w date_str txs = recommend_from w date_str txs'.
Proof.
  intros H.
  assert (D : for_each tx_description txs = for_each tx_description txs').
  { induction H as [|a b txs txs' Hab _ IH]; simpl; [reflexivity|].
    now rewrite (tx_description_reads_prompt_fields a b Hab), IH. }
  destruct H as [|a b txs txs' Hab Hrest]; [reflexivity|].
  unfold recommend_from. now rewrite D.
Qed.

Lemma recommendation_reads_prompt_fields_only_witness :
  recommend_from (sample_world [] (client_replying (Some (py "[1]")))) (py "03/01/2024") [tx_T1]
  = recommend_from (sample_world [] (client_replying (Some (py "[1]")))) (py "03/01/2024")
      [firstn 7 (tl tx_T1)].
Proof.
  apply recommendation_reads_prompt_fields_only.
  constructor; [|constructor].
  intros k Hin. simpl in Hin.
  repeat (destruct Hin as [<- | Hin]; [reflexivity|]). destruct Hin.
Defined.

(** ** What stringifying changes *)

Lemma setitem_keys (d : document) (key : pystr) (v : value) :
  dict_get key d <> None -> map fst (setitem d key v) = map fst d.
Proof.
  induction d as [|[k x] d IH]; simpl; [congruence|].
  destruct (pystr_eqb k key) eqn:E; simpl; [reflexivity|].
  intros H. now rewrite IH.
Qed.

(** X8. When [tx["_id"] = str(tx["_id"])] succeeds on a record, the record
    keeps its keys in their order, every field other than [_id] keeps its
    value, [_id] holds a string, and doing it again changes nothing. *)
Theorem stringify_id_changes_id_only (tx tx' : document) :
  stringify_id tx = Return tx' ->
  map fst tx' = map fst tx
  /\ (forall k, pystr_eqb (py "_id") k = false -> dict_get k tx' = dict_get k tx)
  /\ has_string_id tx' = true
  /\ stringify_id tx' = Return tx'.
Proof.
  unfold stringify_id, getitem.
  destruct (dict_get (py "_id") tx) as [id|] eqn:E; [|discriminate].
  simpl. intros H. injection H as <-.
  split; [apply setitem_keys; congruence|].
  split; [intros k Hk; now apply dict_get_setitem_other|].
  split; [unfold has_string_id; now rewrite dict_get_setitem_same|].
  rewrite dict_get_setitem_same. simpl. f_equal.
  clear E. induction tx as [|[k x] d IH]; simpl.
  - reflexivity.
  - destruct (pystr_eqb k (py "_id")) eqn:Ek; simpl; rewrite Ek; [reflexivity|].
    now rewrite IH.
Qed.

Lemma stringify_id_changes_id_only_witness :
  map fst (with_string_id tx_T1) = map fst tx_T1
  /\ (forall k, pystr_eqb (py "_id") k = false ->
        dict_get k (with_string_id tx_T1) = dict_get k tx_T1)
  /\ has_string_id (with_string_id tx_T1) = true
  /\ stringify_id (with_string_id tx_T1) = Return (with_string_id tx_T1).
Proof.
  exact (stringify_id_changes_id_only tx_T1 (with_string_id tx_T1) eq_refl).
Defined.

(** ** A fenced block is unwrapped *)

Lemma splitlines_cons_no_break (c : char) (s : pystr) :
  is_linebreak c = false ->
  splitlines (c :: s) = match splitlines s with
                        | [] => [[c]]
                        | l :: ls => (c :: l) :: ls
                        end.
Proof. intros H. cbn [splitlines]. now rewrite H. Qed.

Lemma splitlines_nil_inv (s : pystr) : splitlines s = [] -> s = [].
Proof.
  destruct s as [|c s]; [reflexivity|]. intros H.
  now destruct (splitlines_nonempty c s).
Qed.

Lemma no_linebreak_cons (c : char) (x : pystr) :
  no_linebreak (c :: x) = true -> is_linebreak c = false /\ no_linebreak x = true.
Proof.
  unfold no_linebreak. cbn [forallb]. intros H.
  apply andb_true_iff in H as [Hc Hx]. split; [|exact Hx].
  now destruct (is_linebreak c).
Qed.

Lemma splitlines_at_LF (x s : pystr) :
  no_linebreak x = true ->
  splitlines (x ++ LF :: s) = x :: splitlines s.
Proof.
  induction x as [|a x IH]; intros H.
  - destruct s; reflexivity.
  - apply no_linebreak_cons in H as [Ha Hx].
    change ((a :: x) ++ LF :: s) with (a :: (x ++ LF :: s)).
    rewrite (splitlines_cons_no_break a _ Ha), (IH Hx). reflexivity.
Qed.

Lemma splitlines_one_line (x : pystr) :
  no_linebreak x = true -> x <> [] -> splitlines x = [x].
Proof.
  induction x as [|a x IH]; intros H Hne; [congruence|].
  apply no_linebreak_cons in H as [Ha Hx].
  rewrite (splitlines_cons_no_break a x Ha).
  destruct x as [|b x]; [reflexivity|].
  rewrite IH; [reflexivity | exact Hx | discriminate].
Qed.

Lemma join_cons_more (sep x y : pystr) (rest : list pystr) :
  join sep (x :: y :: rest) = x ++ sep ++ join sep (y :: rest).
Proof. reflexivity. Qed.

(** Joining lines with [\n] and splitting again gives the lines back, as
    long as no line holds a line break and the last line is not empty. *)
Lemma splitlines_join (lines : list pystr) :
  Forall (fun l => no_linebreak l = true) lines ->
  last lines [] <> [] ->
  splitlines (join [LF] lines) = lines.
Proof.
  induction lines as [|x lines IH]; intros Hall Hlast; [now simpl in Hlast|].
  inversion Hall as [|? ? Hx Hrest]; subst.
  destruct lines as [|y rest].
  - simpl in *. now apply splitlines_one_line.
  - rewrite join_cons_more.
    change (x ++ [LF] ++ join [LF] (y :: rest)) with (x ++ LF :: join [LF] (y :: rest)).
    rewrite (splitlines_at_LF x _ Hx), IH; [reflexivity | exact Hrest | exact Hlast].
Qed.

Lemma rstrip_ends_with_text (s : pystr) (c : char) :
  is_space c = false -> rstrip (s ++ [c]) = s ++ [c].
Proof.
  intros Hc. induction s as [|a s IH].
  - simpl. now rewrite Hc.
  - change ((a :: s) ++ [c]) with (a :: (s ++ [c])).
    cbn [rstrip]. rewrite IH. now destruct (s ++ [c]) eqn:E; [destruct s; discriminate|].
Qed.

Lemma join_snoc (sep x : pystr) (lines : list pystr) :
  lines <> [] -> join sep (lines ++ [x]) = join sep lines ++ sep ++ x.
Proof.
  induction lines as [|a lines IH]; intros Hne; [congruence|].
  destruct lines as [|b lines].
  - reflexivity.
  - change (join sep ((a :: b :: lines) ++ [x]))
      with (a ++ sep ++ join sep ((b :: lines) ++ [x])).
    rewrite IH by discriminate. rewrite join_cons_more.
    repeat rewrite <- app_assoc. reflexivity.
Qed.

Lemma startswith_app (p s : pystr) : startswith p (p ++ s) = true.
Proof.
  induction p as [|a p IH]; [reflexivity|]. simpl. now rewrite N.eqb_refl.
Qed.

Lemma no_linebreak_app (a b : pystr) :
  no_linebreak a = true -> no_linebreak b = true -> no_linebreak (a ++ b) = true.
Proof.
  unfold no_linebreak. intros Ha Hb. rewrite forallb_app. now rewrite Ha, Hb.
Qed.

(** X9. A reply made of an opening fence line (the fence and any language
    tag), the lines of a body and a closing fence cleans to the body,
    trimmed: the two fence lines go, and every line of the body stays as
    it is, backticks included. *)
Theorem fenced_block_is_unwrapped (tag : pystr) (body : list pystr) :
  no_linebreak tag = true ->
  Forall (fun l => no_linebreak l = true) body ->
  clean_completion_text (join [LF] ((fence ++ tag) :: body ++ [fence]))
  = Return (strip (join [LF] body)).
Proof.
  intros Htag Hbody.
  set (lines := (fence ++ tag) :: body ++ [fence]).
  assert (Hsplit : splitlines (join [LF] lines) = lines).
  { apply splitlines_join.
    - constructor; [now apply no_linebreak_app|].
      apply Forall_app. split; [exact Hbody|]. now constructor.
    - unfold lines.
      change ((fence ++ tag) :: body ++ [fence]) with (((fence ++ tag) :: body) ++ [fence]).
      rewrite last_last. discriminate. }
  assert (Hstrip : strip (join [LF] lines) = join [LF] lines).
  { assert (Hl : lstrip (join [LF] lines) = join [LF] lines).
    { unfold lines. destruct (body ++ [fence]) eqn:E; [destruct body; discriminate|].
      rewrite join_cons_more. reflexivity. }
    unfold strip. rewrite Hl. unfold lines.
    change ((fence ++ tag) :: body ++ [fence]) with (((fence ++ tag) :: body) ++ [fence]).
    rewrite join_snoc by discriminate.
    change ([LF] ++ fence) with ([LF; 96; 96]%N ++ [96%N]).
    rewrite app_assoc. apply rstrip_ends_with_text. reflexivity. }
  unfold clean_completion_text. rewrite Hstrip.
  assert (Hstart : startswith fence (join [LF] lines) = true).
  { unfold lines. destruct (body ++ [fence]) eqn:E; [destruct body; discriminate|].
    rewrite join_cons_more, <- app_assoc. apply startswith_app. }
  rewrite Hstart, Hsplit. unfold lines. cbn [getitem0 rbind tl].
  rewrite startswith_app.
  assert (Hlast : last_is_fence (body ++ [fence]) = true).
  { unfold last_is_fence. destruct (body ++ [fence]) eqn:E; [destruct body; discriminate|].
    rewrite <- E, last_last. reflexivity. }
  rewrite Hlast, removelast_last. reflexivity.
Qed.

Lemma fenced_block_is_unwrapped_witness :
  clean_completion_text
    (join [LF] [py "```json"; py "{"; py "  `x`: 1"; py "}"; py "```"])
  = Return (join [LF] [py "{"; py "  `x`: 1"; py "}"]).
Proof.
  refine (fenced_block_is_unwrapped (py "json") [py "{"; py "  `x`: 1"; py "}"] eq_refl _).
  repeat constructor.
Defined.

(** ** A second pass over a cleaned text *)















(** ** The day window *)

(** X11. The window of a day holds exactly the timestamps of that day up to
    23:59:59 sharp: a timestamp in the last second of the day with a
    non-zero microsecond part lies outside, and so does every other
    day. *)
Theorem day_window_membership (date_obj t : datetime) :
  (0 <= hour t <= 23)%Z -> (0 <= minute t <= 59)%Z ->
  (0 <= second t <= 59)%Z -> (0 <= microsecond t <= 999999)%Z ->
  (in_window (selection_query date_obj) t = true
   <-> (year t = year date_obj /\ month t = month date_obj /\ day t = day date_obj
        /\ (hour t = 23 -> minute t = 59 -> second t = 59 -> microsecond t = 0))%Z).
Proof.
  destruct t as [Y M D h mi sec us], date_obj as [y m d h0 mi0 s0 us0].
  unfold in_window, selection_query, day_query, datetime_leb, datetime_fields, at_time.
  cbn [lex_leb transaction_date_gte transaction_date_lte
       year month day hour minute second microsecond].
  intros Hh Hmi Hs Hus.
  rewrite ?andb_true_iff, ?orb_true_iff, ?andb_true_iff, ?orb_true_iff,
          ?Z.ltb_lt, ?Z.eqb_eq.
  repeat rewrite ?andb_true_iff, ?orb_true_iff, ?Z.ltb_lt, ?Z.eqb_eq.
  lia.
Qed.

Lemma day_window_membership_witness :
  in_window (selection_query march_1_2024)
    {| year := 2024; month := 3; day := 1;
       hour := 23; minute := 59; second := 59; microsecond := 500000 |} = true
  <-> (2024 = 2024 /\ 3 = 3 /\ 1 = 1
       /\ (23 = 23 -> 59 = 59 -> 59 = 59 -> 500000 = 0))%Z.
Proof.
  apply (day_window_membership march_1_2024
           {| year := 2024; month := 3; day := 1;
              hour := 23; minute := 59; second := 59; microsecond := 500000 |});
    simpl; lia.
Defined.

(** ** Dates the parser rejects *)

Lemma one_char_groups (p : char -> bool) (s : pystr) (h : Re.hit) :
  In h (Re.one_char p s) -> Re.groups h = [].
Proof.
  unfold Re.one_char. destruct s as [|c s]; [intros []|].
  destruct (p c); [|intros []]. intros [<- | []]. reflexivity.
Qed.

Lemma run_seq_inv (r1 r2 : Re.regex) (s : pystr) (h : Re.hit) :
  In h (Re.run (Re.Seq r1 r2) s) ->
  exists h1 h2, In h1 (Re.run r1 s) /\ In h2 (Re.run r2 (Re.rest h1))
                /\ Re.groups h = Re.groups h1 ++ Re.groups h2.
Proof.
  cbn [Re.run]. intros H. apply in_flat_map in H as (h1 & H1 & H).
  apply in_map_iff in H as (h2 & <- & H2). now exists h1, h2.
Qed.

Lemma run_group_inv (name : pystr) (r : Re.regex) (s : pystr) (h : Re.hit) :
  In h (Re.run (Re.Group name r) s) ->
  exists h0, In h0 (Re.run r s) /\ Re.groups h = (name, Re.matched h0) :: Re.groups h0.
Proof.
  cbn [Re.run]. intros H. apply in_map_iff in H as (h0 & <- & H0). now exists h0.
Qed.

Lemma run_group_free (r : Re.regex) :
  group_free r = true -> forall s h, In h (Re.run r s) -> Re.groups h = [].
Proof.
  induction r as [c | lo hi | | r1 IH1 r2 IH2 | r1 IH1 r2 IH2 | name r IH];
    cbn [group_free]; intros G s h H; try discriminate.
  - exact (one_char_groups _ s h H).
  - exact (one_char_groups _ s h H).
  - exact (one_char_groups _ s h H).
  - apply andb_true_iff in G as [G1 G2].
    apply run_seq_inv in H as (h1 & h2 & H1 & H2 & ->).
    now rewrite (IH1 G1 _ _ H1), (IH2 G2 _ _ H2).
  - apply andb_true_iff in G as [G1 G2]. cbn [Re.run] in H.
    apply in_app_or in H as [H | H]; [exact (IH1 G1 _ _ H) | exact (IH2 G2 _ _ H)].
Qed.

Lemma run_named_group (name : pystr) (r : Re.regex) (s : pystr) (h : Re.hit) :
  group_free r = true ->
  In h (Re.run (Re.Group name r) s) -> exists text, Re.groups h = [(name, text)].
Proof.
  intros G H. apply run_group_inv in H as (h0 & H0 & ->).
  rewrite (run_group_free r G _ _ H0). now eexists.
Qed.

(** Every match of the pattern carries the three groups. *)
Lemma format_regex_groups (s : pystr) (h : Re.hit) :
  In h (Re.run format_regex s) ->
  exists tm td tY, Re.groups h = [(py "m", tm); (py "d", td); (py "Y", tY)].
Proof.
  unfold format_regex. intros H.
  apply run_seq_inv in H as (hm & h1 & Hm & H1 & ->).
  apply run_seq_inv in H1 as (hs1 & h2 & Hs1 & H2 & ->).
  apply run_seq_inv in H2 as (hd & h3 & Hd & H3 & ->).
  apply run_seq_inv in H3 as (hs2 & hY & Hs2 & HY & ->).
  apply (run_named_group (py "m")) in Hm as (tm & ->); [|reflexivity].
  apply (run_named_group (py "d")) in Hd as (td & ->); [|reflexivity].
  apply (run_named_group (py "Y")) in HY as (tY & ->); [|reflexivity].
  rewrite (run_group_free (Re.Lit (chr "/")) eq_refl _ _ Hs1).
  rewrite (run_group_free (Re.Lit (chr "/")) eq_refl _ _ Hs2).
  now exists tm, td, tY.
Qed.

Lemma new_datetime_raises (y m d H M S : Z) (e : py_exn) :
  new_datetime y m d H M S = Raise e -> exists why, e = ValueError why.
Proof.
  unfold new_datetime.
  destruct (negb (between 1 9999 y)); [intros E; injection E as <-; eauto|].
  destruct (negb (between 1 12 m)); [intros E; injection E as <-; eauto|].
  destruct (negb (between 1 (days_in_month y m) d)); [intros E; injection E as <-; eauto|].
  destruct (negb (between 0 23 H && between 0 59 M && between 0 59 S));
    [intros E; injection E as <-; eauto | discriminate].
Qed.

(** [strptime] fails with [ValueError] and nothing else. *)
Lemma strptime_raises_ValueError (s : pystr) (e : py_exn) :
  strptime s = Raise e -> exists why, e = ValueError why.
Proof.
  unfold strptime, Re.match_.
  destruct (Re.run format_regex s) as [|found others] eqn:R; cbn [hd_error].
  - intros E. injection E as <-. eauto.
  - destruct (Re.rest found); [|intros E; injection E as <-; eauto].
    destruct (format_regex_groups s found) as (tm & td & tY & ->).
    { rewrite R. now left. }
    unfold group_int.
    change (Re.group (py "m") [(py "m", tm); (py "d", td); (py "Y", tY)]) with (Some tm).
    change (Re.group (py "d") [(py "m", tm); (py "d", td); (py "Y", tY)]) with (Some td).
    change (Re.group (py "Y") [(py "m", tm); (py "d", td); (py "Y", tY)]) with (Some tY).
    cbv beta iota delta [rbind].
    destruct (int_digits tm); cbv beta iota delta [rbind];
      [|intros E; injection E as <-; eauto].
    destruct (int_digits td); cbv beta iota delta [rbind];
      [|intros E; injection E as <-; eauto].
    destruct (int_digits tY); cbv beta iota delta [rbind];
      [|intros E; injection E as <-; eauto].
    apply new_datetime_raises.
Qed.

(** X12. Whatever date string the parser rejects, be it one that does not
    match the pattern or one that matches it and names no day of the
    calendar (30 February, year 0000), both entry points raise a
    [ValueError] once the database handle is obtained, before any query. *)
Theorem rejected_date_raises_ValueError
  (w : world) (db : database) (date_str : pystr) (e : py_exn) :
  get_database w = Replied db ->
  strptime date_str = Raise e ->
  exists why,
    e = ValueError why
    /\ fetch_transactions_by_date w date_str = ([GetDatabase], Raise (ValueError why))
    /\ get_recommended_transaction_by_date w date_str = ([GetDatabase], Raise (ValueError why)).
Proof.
  intros Edb E. destruct (strptime_raises_ValueError date_str e E) as (why & ->).
  exists why. split; [reflexivity|]. split.
  - exact (fetch_transactions_bad_date w date_str db _ Edb E).
  - unfold get_recommended_transaction_by_date.
    now rewrite (fetch_unprocessed_bad_date w date_str db _ Edb E).
Qed.

Lemma rejected_date_raises_ValueError_witness :
  matches_format (py "02/30/2024") = true
  /\ exists why,
       ValueError DayOutOfRange = ValueError why
       /\ fetch_transactions_by_date (sample_world [tx_T1] (client_replying None))
            (py "02/30/2024") = ([GetDatabase], Raise (ValueError why))
       /\ get_recommended_transaction_by_date (sample_world [tx_T1] (client_replying None))
            (py "02/30/2024") = ([GetDatabase], Raise (ValueError why)).
Proof.
  split; [reflexivity|].
  exact (rejected_date_raises_ValueError
           (sample_world [tx_T1] (client_replying None)) (stored_database [tx_T1])
           (py "02/30/2024") (ValueError DayOutOfRange) eq_refl eq_refl).
Defined.

(** ** Month and day without leading zeros *)

(** X13. Leading zeros in month and day are optional: a valid date written like
    3/1/2024 is parsed to the same day as 03/01/2024, and for the two
    spellings [fetch_transactions_by_date] makes the same calls and gives
    the same outcome, and so does the read of the store in
    [get_recommended_transaction_by_date]. *)
Theorem leading_zeros_are_optional (w : world) (y m d : Z) :
  valid_date y m d = true ->
  strptime (format_unpadded m d y) = strptime (format_mdY m d y)
  /\ fetch_transactions_by_date w (format_unpadded m d y)
     = fetch_transactions_by_date w (format_mdY m d y)
  /\ fetch_unprocessed w (format_unpadded m d y)
     = fetch_unprocessed w (format_mdY m d y).
Proof.
  intros V.
  assert (E : strptime (format_unpadded m d y) = strptime (format_mdY m d y))
    by now rewrite strptime_format_unpadded, strptime_format_mdY.
  split; [exact E|].
  unfold fetch_transactions_by_date, fetch_unprocessed. now rewrite E.
Qed.

Lemma leading_zeros_are_optional_witness :
  format_unpadded 3 1 2024 = py "3/1/2024"
  /\ strptime (py "3/1/2024") = strptime (py "03/01/2024")
  /\ fetch_transactions_by_date (sample_world [tx_T1] (client_replying None)) (py "3/1/2024")
     = fetch_transactions_by_date (sample_world [tx_T1] (client_replying None)) (py "03/01/2024").
Proof.
  split; [reflexivity|].
  pose proof (leading_zeros_are_optional
                (sample_world [tx_T1] (client_replying None)) 2024 3 1 eq_refl)
    as (E & F & _).
  split; [exact E | exact F].
Defined.

(** ** Trimming before cleaning *)

(** X14. The reply is trimmed on line 130 and handed to
    [clean_completion_text], which trims again: the first trim changes
    nothing in the outcome. *)
Theorem strip_before_clean_is_redundant (reply_text : pystr) :
  clean_completion_text (strip reply_text) = clean_completion_text reply_text.
Proof.
  unfold clean_completion_text. now rewrite strip_idempotent.
Qed.

Lemma repository_faults_propagate_witness :
  let w := {| get_database := Faulted connection_error;
              get_openai_client := Replied (client_replying None);
              json_loads := loads_stub |} in
  fetch_transactions_by_date w (py "03/01/2024")
    = ([GetDatabase], Raise (Raised connection_error))
  /\ get_recommended_transaction_by_date w (py "03/01/2024")
    = ([GetDatabase], Raise (Raised connection_error)).
Proof.
  exact (proj1 (repository_faults_propagate
                  {| get_database := Faulted connection_error;
                     get_openai_client := Replied (client_replying None);
                     json_loads := loads_stub |} (py "03/01/2024"))
               connection_error eq_refl).
Defined.

(** ** Date strings outside the pattern *)




























